(** * The Sparkify ETL of [etl.py], embedded over a small model of the dataframe engine

    [etl.py] reads two JSON sources (song catalog, activity log) with fixed
    schemas, derives the star schema (songs, artists, users, time, songplays)
    with Spark SQL queries over temporary views, and writes every table as
    parquet.  The embedding has three layers:

    - the engine: cells, frames split in partitions, a SELECT evaluator with
      name resolution against the session's temporary views, parquet output;
    - the session monad: state (input files, views, written tables) threaded
      through every call, a raised exception ending the run and leaving the
      state as it was at that moment;
    - the functions of [etl.py], statement by statement.

    The input of the model is what the JSON reader hands over: for each path
    pattern the records of the matched files, already decoded under the
    declared schema and grouped in the input splits the engine forms.  How the
    reader decodes a JSON token under a declared type is the engine's affair
    and no part of the embedding.

    Floating point and the process-local civil time are not computed: a double
    is an opaque code, and a scalar function of the engine applied to a cell
    (hour, weekofyear, the Python udf) is kept as the symbolic application. *)

From Stdlib Require Import List String Ascii ZArith Lia Bool Arith Sorted Permutation.
From Stdlib Require Import Decimal DecimalString DecimalPos DecimalZ.
Import ListNotations.
Open Scope string_scope.

(* ================================================================== *)
(** ** Python side: exceptions, [os.path.join], objects handed to the API *)

Inductive exn : Type :=
| AnalysisException (msg : string)   (* raised by the engine's analyser *)
| AssertionError (msg : string)      (* raised by pyspark's argument checks *)
| AttributeError (msg : string)      (* [df.name] for a name that is no column *)
| KeyError (msg : string)            (* [config[name]] for a name that is no section *)
| TypeError (msg : string)           (* [os.environ[k] = v] for a [v] that is no str *)
| ConfigError (msg : string).        (* raised by configparser on a file it cannot parse *)

Inductive result (A : Type) : Type :=
| Ok (a : A)
| Raise (e : exn).
Arguments Ok {A} a.
Arguments Raise {A} e.

Definition rbind {A B} (r : result A) (k : A -> result B) : result B :=
  match r with
  | Ok a => k a
  | Raise e => Raise e
  end.

Fixpoint rmap {A B} (f : A -> result B) (l : list A) : result (list B) :=
  match l with
  | [] => Ok []
  | a :: l' => rbind (f a) (fun b => rbind (rmap f l') (fun bs => Ok (b :: bs)))
  end.

Definition ends_with_slash (s : string) : bool :=
  match get (String.length s - 1) s with
  | Some c => Ascii.eqb c "/"
  | None => false
  end.

Definition starts_with_slash (s : string) : bool :=
  match s with
  | String c _ => Ascii.eqb c "/"
  | EmptyString => false
  end.

(** [os.path.join a b] on a POSIX host. *)
Definition join (a b : string) : string :=
  if starts_with_slash b then b
  else if ends_with_slash a then a ++ b
  else match a with
       | EmptyString => b
       | _ => a ++ "/" ++ b
       end.

(* ================================================================== *)
(** ** Cells, schemas, frames *)

(** A cell of a frame.  [VDouble d]: a binary64 value, [d] coding it up to the
    engine's grouping equality.  [VApp f a]: the engine's scalar function [f]
    applied to the non-null cell [a], left uninterpreted. *)
Inductive value : Type :=
| VNull
| VStr (s : string)
| VInt (z : Z)
| VDouble (d : Z)
| VApp (f : string) (a : value).

Definition value_eq_dec : forall a b : value, {a = b} + {a <> b}.
Proof.
  decide equality; first [ apply string_dec | apply Z.eq_dec ].
Defined.

Definition row : Type := list value.

Definition row_eq_dec : forall a b : row, {a = b} + {a <> b} :=
  list_eq_dec value_eq_dec.

Inductive dtype : Type := StringType | DoubleType | IntegerType | LongType.

Record StructField : Type := mkField {
  sf_name : string;
  sf_type : dtype;
  sf_nullable : bool
}.

Definition StructType : Type := list StructField.

Definition int_in (bits : Z) (z : Z) : bool :=
  ((- 2 ^ (bits - 1) <=? z) && (z <? 2 ^ (bits - 1)))%Z.

(** The cell is null or a value of the declared type. *)
Definition has_type (t : dtype) (v : value) : bool :=
  match v, t with
  | VNull, _ => true
  | VStr _, StringType => true
  | VDouble _, DoubleType => true
  | VInt z, IntegerType => int_in 32 z
  | VInt z, LongType => int_in 64 z
  | _, _ => false
  end.


(** One record as the reader decoded it: field name to the cell decoded under
    the type the schema declares for the field. *)
Definition record : Type := list (string * value).

Fixpoint field (name : string) (r : record) : value :=
  match r with
  | [] => VNull
  | (k, v) :: r' => if String.eqb k name then v else field name r'
  end.

(** The row of a record: one cell per field of the schema, in its order; a
    field the record does not have is null. *)
Definition apply_schema (schema : StructType) (r : record) : row :=
  map (fun f => field (sf_name f) r) schema.

(** A frame: column names and the rows, split in the engine's partitions. *)
Record DataFrame : Type := mkFrame {
  columns : list string;
  partitions : list (list row)
}.

Definition collect (df : DataFrame) : list row := List.concat (partitions df).

Fixpoint index_of (c : string) (cols : list string) : option nat :=
  match cols with
  | [] => None
  | c' :: cols' =>
      if String.eqb c' c then Some 0%nat
      else match index_of c cols' with
           | Some i => Some (S i)
           | None => None
           end
  end.

(** The cell of row [r] under column [c] of a frame with columns [cols]. *)
Definition cell (cols : list string) (r : row) (c : string) : value :=
  match index_of c cols with
  | Some i => nth i r VNull
  | None => VNull
  end.

(** A row cut or null-padded to [n] cells. *)
Definition fit (n : nat) (r : row) : row := firstn n (r ++ repeat VNull n)%list.

(* ================================================================== *)
(** ** Scalar semantics of the engine *)

Definition is_digit (c : ascii) : bool :=
  ((48 <=? nat_of_ascii c) && (nat_of_ascii c <=? 57))%nat.

Definition digit (c : ascii) : Z := Z.of_nat (nat_of_ascii c - 48).

(** Digits up to the end or to the first point; the rest is the fraction. *)
Fixpoint int_part (acc : Z) (s : string) : option (Z * string) :=
  match s with
  | EmptyString => Some (acc, EmptyString)
  | String c s' =>
      if Ascii.eqb c "." then Some (acc, s')
      else if is_digit c then int_part (acc * 10 + digit c)%Z s'
      else None
  end.

Fixpoint all_digits (s : string) : bool :=
  match s with
  | EmptyString => true
  | String c s' => is_digit c && all_digits s'
  end.

(** A sign, digits, an optional fraction that is checked and dropped; any
    other text, and a value that does not fit 32 bits, gives nothing. *)
Definition parse_int (s : string) : option Z :=
  match s with
  | EmptyString => None
  | String c s' =>
      let neg := Ascii.eqb c "-" in
      let body := if neg || Ascii.eqb c "+" then s' else s in
      match body with
      | EmptyString => None
      | _ =>
          match int_part 0 body with
          | Some (m, frac) =>
              let z := if neg then (- m)%Z else m in
              if all_digits frac && int_in 32 z then Some z else None
          | None => None
          end
      end
  end.

(** White space and control characters. *)
Definition is_space (c : ascii) : bool :=
  ((nat_of_ascii c <=? 32) || (nat_of_ascii c =? 127))%nat.

Fixpoint ltrim (s : string) : string :=
  match s with
  | EmptyString => EmptyString
  | String c s' => if is_space c then ltrim s' else s
  end.

Fixpoint rtrim (s : string) : string :=
  match s with
  | EmptyString => EmptyString
  | String c s' =>
      match rtrim s' with
      | EmptyString => if is_space c then EmptyString else String c EmptyString
      | t => String c t
      end
  end.

(** CAST(string AS INT) outside ANSI mode (Spark 3): the text is trimmed of
    white space at both ends and parsed; a text that is no number is null. *)
Definition cast_int (s : string) : option Z := parse_int (rtrim (ltrim s)).

(** [a = b] in SQL: null when an operand is null (or not comparable); a string
    against an integer is cast to the integer type first. *)
Definition sql_eq (a b : value) : option bool :=
  match a, b with
  | VStr x, VStr y => Some (String.eqb x y)
  | VInt x, VInt y => Some (Z.eqb x y)
  | VDouble x, VDouble y => Some (Z.eqb x y)
  | VStr x, VInt y => option_map (fun n => Z.eqb n y) (cast_int x)
  | VInt x, VStr y => option_map (fun n => Z.eqb x n) (cast_int y)
  | _, _ => None
  end.

(** A scalar function of the engine: null on null, uninterpreted otherwise. *)
Definition apply_scalar (f : string) (a : value) : value :=
  match a with
  | VNull => VNull
  | _ => VApp f a
  end.

Definition wrap64 (z : Z) : Z := ((z + 2 ^ 63) mod 2 ^ 64 - 2 ^ 63)%Z.

(** The 64-bit id of the row at position [pos] of partition [pid]: the
    partition index in the upper 31 bits, the position in the lower 33. *)
Definition monotonic_id (pid pos : Z) : Z := wrap64 (Z.shiftl pid 33 + pos).

(* ================================================================== *)
(** ** Column expressions and their resolution *)

Inductive expr : Type :=
| Col (q : option string) (c : string)     (* [c] or [q.c] *)
| Lit (v : value)
| Call (f : string) (a : expr)             (* [f(a)] *)
| MonotonicId.

Inductive cond : Type :=
| CmpEq (a b : expr)
| CmpNe (a b : expr).

(** The columns in scope, each with the qualifier of its relation. *)
Definition scope : Type := list (string * string).

Fixpoint positions {A} (p : A -> bool) (l : list A) (i : nat) : list nat :=
  match l with
  | [] => []
  | a :: l' => if p a then i :: positions p l' (S i) else positions p l' (S i)
  end.

Definition named (q : option string) (c : string) (e : string * string) : bool :=
  String.eqb (snd e) c &&
  match q with
  | None => true
  | Some a => String.eqb (fst e) a
  end.

Definition resolve_col (sc : scope) (q : option string) (c : string) : result nat :=
  match positions (named q c) sc 0 with
  | [i] => Ok i
  | [] => Raise (AnalysisException ("cannot resolve " ++ c))
  | _ => Raise (AnalysisException ("ambiguous reference " ++ c))
  end.

Inductive rexpr : Type :=
| RCol (i : nat)
| RLit (v : value)
| RCall (f : string) (a : rexpr)
| RMonotonicId.

Inductive rcond : Type :=
| RCmp (negated : bool) (a b : rexpr).

Fixpoint resolve_expr (sc : scope) (e : expr) : result rexpr :=
  match e with
  | Col q c => rbind (resolve_col sc q c) (fun i => Ok (RCol i))
  | Lit v => Ok (RLit v)
  | Call f a => rbind (resolve_expr sc a) (fun a' => Ok (RCall f a'))
  | MonotonicId => Ok RMonotonicId
  end.

Definition resolve_cond (sc : scope) (c : cond) : result rcond :=
  match c with
  | CmpEq a b =>
      rbind (resolve_expr sc a) (fun a' =>
      rbind (resolve_expr sc b) (fun b' => Ok (RCmp false a' b')))
  | CmpNe a b =>
      rbind (resolve_expr sc a) (fun a' =>
      rbind (resolve_expr sc b) (fun b' => Ok (RCmp true a' b')))
  end.

Fixpoint eval (pid pos : Z) (r : row) (e : rexpr) : value :=
  match e with
  | RCol i => nth i r VNull
  | RLit v => v
  | RCall f a => apply_scalar f (eval pid pos r a)
  | RMonotonicId => VInt (monotonic_id pid pos)
  end.

(** WHERE, ON and [filter] keep a row only when the predicate is true; a null
    predicate drops it. *)
Definition holds (c : rcond) (r : row) : bool :=
  match c with
  | RCmp negated a b =>
      match sql_eq (eval 0 0 r a) (eval 0 0 r b) with
      | Some t => if negated then negb t else t
      | None => false
      end
  end.

(* ================================================================== *)
(** ** Frame operations *)

(** Rows of one partition visited in order, each with its position. *)
Fixpoint number_rows (f : Z -> row -> row) (pos : Z) (rs : list row) : list row :=
  match rs with
  | [] => []
  | r :: rs' => f pos r :: number_rows f (pos + 1)%Z rs'
  end.

(** Partitions visited in order, each with its index. *)
Fixpoint number_parts (f : Z -> Z -> row -> row) (pid : Z)
    (ps : list (list row)) : list (list row) :=
  match ps with
  | [] => []
  | p :: ps' => number_rows (f pid) 0 p :: number_parts f (pid + 1)%Z ps'
  end.

(** A projection: narrow, so the partitioning is kept. *)
Definition project (es : list rexpr) (names : list string) (df : DataFrame) : DataFrame :=
  {| columns := names;
     partitions :=
       number_parts (fun pid pos r => map (eval pid pos r) es) 0 (partitions df) |}.

Definition keep (c : option rcond) (r : row) : bool :=
  match c with
  | Some c' => holds c' r
  | None => true
  end.

Definition restrict (c : option rcond) (df : DataFrame) : DataFrame :=
  {| columns := columns df;
     partitions := map (filter (keep c)) (partitions df) |}.

(** DISTINCT shuffles the rows; the model gathers them in one partition, first
    occurrences removed. *)
Definition distinct (df : DataFrame) : DataFrame :=
  {| columns := columns df;
     partitions := [nodup row_eq_dec (collect df)] |}.

Definition frame_scope (qualifier : string) (df : DataFrame) : scope :=
  map (fun c => (qualifier, c)) (columns df).

(** [df.name]: the column of that name, when the frame has one. *)
Definition getattr (df : DataFrame) (name : string) : result expr :=
  if existsb (String.eqb name) (columns df) then Ok (Col None name)
  else Raise (AttributeError name).

(** [df.filter(condition)] *)
Definition df_filter (c : cond) (df : DataFrame) : result DataFrame :=
  rbind (resolve_cond (frame_scope EmptyString df) c) (fun c' =>
  Ok (restrict (Some c') df)).

(** What Python hands to [withColumn] as the column. *)
Inductive pyobj : Type :=
| PyColumn (e : expr)
| PyStr (s : string).

Fixpoint column_repr (e : expr) : string :=
  match e with
  | Col _ c => c
  | Lit _ => "lit"
  | Call f a => f ++ "(" ++ column_repr a ++ ")"
  | MonotonicId => "monotonically_increasing_id()"
  end.

(** [str(column)]: the text of the Column object, a Python string. *)
Definition str (e : expr) : pyobj := PyStr ("Column<'" ++ column_repr e ++ "'>").

Fixpoint replace_nth (i : nat) (v : value) (r : row) : row :=
  match r, i with
  | [], _ => []
  | _ :: r', O => v :: r'
  | x :: r', S i' => x :: replace_nth i' v r'
  end.

(** [df.withColumn(name, col)]: pyspark asserts that [col] is a Column; the
    column is appended, or replaces the one of that name. *)
Definition withColumn (name : string) (col : pyobj) (df : DataFrame) : result DataFrame :=
  match col with
  | PyStr _ => Raise (AssertionError "col should be Column")
  | PyColumn e =>
      rbind (resolve_expr (frame_scope EmptyString df) e) (fun e' =>
      let n := List.length (columns df) in
      match index_of name (columns df) with
      | Some i =>
          Ok {| columns := columns df;
                partitions :=
                  number_parts
                    (fun pid pos r => replace_nth i (eval pid pos r e') (fit n r))
                    0 (partitions df) |}
      | None =>
          Ok {| columns := (columns df ++ [name])%list;
                partitions :=
                  number_parts
                    (fun pid pos r => (fit n r ++ [eval pid pos r e'])%list)
                    0 (partitions df) |}
      end)
  end.

(* ================================================================== *)
(** ** SELECT queries *)

Record select_item : Type := mkItem {
  si_expr : expr;
  si_alias : option string     (* [e alias] and [e AS alias] alike *)
}.

Inductive relation : Type :=
| Rel (name : string) (alias : option string).

Inductive source : Type :=
| From (r : relation)
| InnerJoin (l r : relation) (on : cond).

Record query : Type := mkQuery {
  q_distinct : bool;
  q_items : list select_item;
  q_from : source;
  q_where : option cond
}.

Definition item_name (it : select_item) : string :=
  match si_alias it with
  | Some a => a
  | None => column_repr (si_expr it)
  end.

Fixpoint assoc {V} (k : string) (l : list (string * V)) : option V :=
  match l with
  | [] => None
  | (k', v) :: l' => if String.eqb k' k then Some v else assoc k l'
  end.

Fixpoint remove_key {V} (k : string) (l : list (string * V)) : list (string * V) :=
  match l with
  | [] => []
  | (k', v) :: l' =>
      if String.eqb k' k then remove_key k l' else (k', v) :: remove_key k l'
  end.

Definition put {V} (k : string) (v : V) (l : list (string * V)) : list (string * V) :=
  (k, v) :: remove_key k l.

Definition lookup_view (views : list (string * DataFrame)) (name : string)
    : result DataFrame :=
  match assoc name views with
  | Some df => Ok df
  | None => Raise (AnalysisException ("Table or view not found: " ++ name))
  end.

(** Once a relation has an alias, the alias is its only qualifier. *)
Definition qualifier (r : relation) : string :=
  match r with
  | Rel name None => name
  | Rel _ (Some a) => a
  end.

Definition relation_frame (views : list (string * DataFrame)) (r : relation)
    : result DataFrame :=
  match r with
  | Rel name _ => lookup_view views name
  end.

Definition joined (nl : nat) (on : rcond) (ls rs : list row) : list row :=
  flat_map (fun a =>
    map (fun b => (fit nl a ++ b)%list)
        (filter (fun b => holds on (fit nl a ++ b)%list) rs)) ls.

(** The FROM clause: the relations are looked up among the temporary views
    first, then the join condition is resolved. *)
Definition resolve_source (views : list (string * DataFrame)) (s : source)
    : result (scope * DataFrame) :=
  match s with
  | From r =>
      rbind (relation_frame views r) (fun df =>
      Ok (frame_scope (qualifier r) df, df))
  | InnerJoin l r on =>
      rbind (relation_frame views l) (fun dl =>
      rbind (relation_frame views r) (fun dr =>
      let sc := (frame_scope (qualifier l) dl ++ frame_scope (qualifier r) dr)%list in
      rbind (resolve_cond sc on) (fun on' =>
      Ok (sc,
          {| columns := (columns dl ++ columns dr)%list;
             partitions :=
               [joined (List.length (columns dl)) on' (collect dl) (collect dr)] |}))))
  end.

Definition resolve_where (sc : scope) (w : option cond) : result (option rcond) :=
  match w with
  | None => Ok None
  | Some c => rbind (resolve_cond sc c) (fun c' => Ok (Some c'))
  end.

(** Analysis (relations, then columns), then evaluation. *)
Definition run_query (views : list (string * DataFrame)) (q : query)
    : result DataFrame :=
  rbind (resolve_source views (q_from q)) (fun sd =>
  rbind (resolve_where (fst sd) (q_where q)) (fun w =>
  rbind (rmap (resolve_expr (fst sd)) (map si_expr (q_items q))) (fun es =>
  let out := project es (map item_name (q_items q)) (restrict w (snd sd)) in
  Ok (if q_distinct q then distinct out else out)))).

(* ================================================================== *)
(** ** The session: input files, temporary views, written tables *)

(** A parquet dataset on disk: the partition columns and the rows. *)
Record table : Type := mkTable {
  partition_by : list string;
  contents : DataFrame
}.

Record session : Type := mkSession {
  files : list (string * list (list record));   (* path pattern to input splits *)
  views : list (string * DataFrame);
  store : list (string * table)
}.

(** A computation runs on the session and returns a value or raises; the
    session it leaves is the one at the moment it returned or raised. *)
Definition M (A : Type) : Type := session -> result A * session.

Definition ret {A} (a : A) : M A := fun s => (Ok a, s).

Definition bind {A B} (m : M A) (k : A -> M B) : M B :=
  fun s =>
    match m s with
    | (Ok a, s') => k a s'
    | (Raise e, s') => (Raise e, s')
    end.

Definition lift {A} (r : result A) : M A := fun s => (r, s).

Declare Scope etl_scope.
Delimit Scope etl_scope with etl.
Notation "x <- m ;; k" := (bind m (fun x => k))
  (at level 61, m at next level, right associativity) : etl_scope.
Notation "m ;; k" := (bind m (fun _ => k))
  (at level 61, right associativity) : etl_scope.
Open Scope etl_scope.

(** [spark.read.json(path, schema=schema)].  A pattern that matches nothing
    raises; a pattern that matches directories without any file gives, the
    schema being declared, a frame without rows. *)
Definition read_json (path : string) (schema : StructType) : M DataFrame :=
  fun s =>
    match assoc path (files s) with
    | None =>
        (Raise (AnalysisException ("Path does not exist: " ++ path)), s)
    | Some fl =>
        (Ok {| columns := map sf_name schema;
               partitions := map (map (apply_schema schema)) fl |}, s)
    end.

(** [df.createOrReplaceTempView(name)] *)
Definition createOrReplaceTempView (df : DataFrame) (name : string) : M unit :=
  fun s =>
    (Ok tt, {| files := files s; views := put name df (views s); store := store s |}).

(** [spark.sql(query)] *)
Definition spark_sql (q : query) : M DataFrame :=
  fun s => (run_query (views s) q, s).

(** [df.write.partitionBy(cols).parquet(path, 'overwrite')] *)
Definition write_parquet (df : DataFrame) (cols : list string) (path : string) : M unit :=
  fun s =>
    if forallb (fun c => existsb (String.eqb c) (columns df)) cols then
      (Ok tt,
       {| files := files s; views := views s;
          store := put path {| partition_by := cols; contents := df |} (store s) |})
    else (Raise (AnalysisException "Partition column not found"), s).

(* ================================================================== *)
(** ** [etl.py] *)

Definition col (c : string) : select_item := mkItem (Col None c) None.
Definition col_as (e : expr) (a : string) : select_item := mkItem e (Some a).
Definition qcol (q c : string) : expr := Col (Some q) c.
Definition fn (f c : string) : expr := Call f (Col None c).

(** [getOrCreate]: the session the run works on. *)
Definition create_spark_session : M unit := ret tt.

Definition songdata_schema : StructType :=
  [ mkField "song_id" StringType true;
    mkField "title" StringType true;
    mkField "year" StringType true;
    mkField "duration" DoubleType true;
    mkField "artist_id" StringType true;
    mkField "artist_name" StringType true;
    mkField "artist_location" StringType true;
    mkField "artist_latitude" DoubleType true;
    mkField "artist_longitude" DoubleType true ].

Definition create_song_dataframe (input_data : string) : M DataFrame :=
  let song_data := input_data ++ "/song_data/*/*/*/" in
  read_json song_data songdata_schema.

Definition logdata_schema : StructType :=
  [ mkField "artist" StringType true;
    mkField "auth" StringType true;
    mkField "firstName" StringType true;
    mkField "gender" StringType true;
    mkField "itemInSession" IntegerType true;
    mkField "lastName" StringType true;
    mkField "length" DoubleType true;
    mkField "level" StringType true;
    mkField "location" StringType true;
    mkField "method" StringType true;
    mkField "page" StringType true;
    mkField "registration" DoubleType true;
    mkField "sessionId" IntegerType true;
    mkField "song" StringType true;
    mkField "status" IntegerType true;
    mkField "ts" LongType true;
    mkField "userAgent" StringType true;
    mkField "userId" StringType true ].

(** [udf(lambda x: datetime.fromtimestamp(x / 1000.0))] applied to a column. *)
Definition create_timestamp (e : expr) : expr := Call "create_timestamp" e.

Definition create_log_dataframe (input_data : string) : M DataFrame :=
  let log_data := input_data ++ "/log_data/*/*/*/" in
  log_df <- read_json log_data logdata_schema ;;
  ts <- lift (getattr log_df "ts") ;;
  log_df <- lift (withColumn "timeStamp" (PyColumn (create_timestamp ts)) log_df) ;;
  timeStamp <- lift (getattr log_df "timeStamp") ;;
  log_df <- lift (withColumn "startTime" (str timeStamp) log_df) ;;
  ret log_df.

(** Lines 86-90.  In the Python literal the backslash joins the two lines, and
    no comma separates [title] from [artist_id]: the select list reads
    [song_id, title artist_id, year, duration], [artist_id] being the alias of
    [title]. *)
Definition songs_query : query :=
  {| q_distinct := true;
     q_items := [ col "song_id"; col_as (Col None "title") "artist_id";
                  col "year"; col "duration" ];
     q_from := From (Rel "staging_songs" None);
     q_where := Some (CmpNe (Col None "year") (Lit (VInt 0))) |}.

(** Lines 98-101. *)
Definition artists_query : query :=
  {| q_distinct := true;
     q_items := [ col "artist_id"; col "artist_name"; col "artist_location";
                  col "artist_latitude"; col "artist_longitude" ];
     q_from := From (Rel "staging_songs" None);
     q_where := None |}.

Definition process_song_data (input_data output_data : string) : M unit :=
  song_data <- create_song_dataframe input_data ;;
  createOrReplaceTempView song_data "staging_songs" ;;
  songs_table <- spark_sql songs_query ;;
  createOrReplaceTempView songs_table "songs" ;;
  write_parquet songs_table ["year"; "artist_id"]
                (join output_data "songs/songs.parquet") ;;
  artists_table <- spark_sql artists_query ;;
  createOrReplaceTempView artists_table "artists" ;;
  write_parquet artists_table [] (join output_data "artists/artists.parquet").

(** Lines 122-125. *)
Definition users_query : query :=
  {| q_distinct := true;
     q_items := [ col "userId"; col "firstName"; col "lastName";
                  col "gender"; col "level" ];
     q_from := From (Rel "staging_logs" None);
     q_where := None |}.

(** Lines 133-141. *)
Definition time_query : query :=
  {| q_distinct := false;
     q_items := [ col "startTime";
                  col_as (fn "hour" "startTime") "hour";
                  col_as (fn "day" "startTime") "day";
                  col_as (fn "weekofyear" "startTime") "week";
                  col_as (fn "month" "startTime") "month";
                  col_as (fn "year" "startTime") "year";
                  col_as (fn "weekday" "startTime") "weekday" ];
     q_from := From (Rel "staging_logs" None);
     q_where := None |}.

(** Lines 152-159. *)
Definition combined_query : query :=
  {| q_distinct := false;
     q_items := [ col_as (qcol "l" "userId") "userId";
                  col_as (qcol "l" "level") "level";
                  col_as (qcol "s" "song_id") "song_id";
                  col_as (qcol "s" "artist_id") "artist_id";
                  col_as (qcol "l" "sessionId") "sessionId";
                  col_as (qcol "l" "location") "location";
                  col_as (qcol "l" "userAgent") "userAgent";
                  col_as (qcol "l" "startTime") "startTime" ];
     q_from := InnerJoin (Rel "staging_logs" (Some "l")) (Rel "song_df" (Some "s"))
                 (CmpEq (qcol "staging_logs" "artist") (qcol "song_df" "artist_name"));
     q_where := None |}.

(** Lines 163-166. *)
Definition songplays_query : query :=
  {| q_distinct := false;
     q_items := [ col "startTime"; col "userId"; col "level"; col "song_id";
                  col "artist_id"; col "sessionId"; col "location"; col "userAgent";
                  col_as (fn "year" "startTime") "year";
                  col_as (fn "month" "startTime") "month" ];
     q_from := From (Rel "combined_table" None);
     q_where := None |}.

(** Lines 163-167: the projection of the joined view, then the id column. *)
Definition songplays_table : M DataFrame :=
  t <- spark_sql songplays_query ;;
  lift (withColumn "songplay_id" (PyColumn MonotonicId) t).

(** Lines 117-173 of [process_log_data]: all that follows the read. *)
Definition process_log_frame (log_data : DataFrame) (input_data output_data : string)
    : M unit :=
  page <- lift (getattr log_data "page") ;;
  log_data <- lift (df_filter (CmpEq page (Lit (VStr "NextSong"))) log_data) ;;
  createOrReplaceTempView log_data "staging_logs" ;;
  users_table <- spark_sql users_query ;;
  createOrReplaceTempView users_table "users" ;;
  write_parquet users_table [] (join output_data "users/users.parquet") ;;
  time_table <- spark_sql time_query ;;
  createOrReplaceTempView time_table "time" ;;
  write_parquet time_table ["year"; "month"] (join output_data "time/time.parquet") ;;
  song_df <- create_song_dataframe input_data ;;
  combined_df <- spark_sql combined_query ;;
  createOrReplaceTempView combined_df "combined_table" ;;
  songplays_table <- songplays_table ;;
  createOrReplaceTempView songplays_table "songplays" ;;
  write_parquet songplays_table ["year"; "month"]
                (join output_data "songplays/songplays.parquet").

Definition process_log_data (input_data output_data : string) : M unit :=
  log_data <- create_log_dataframe input_data ;;
  process_log_frame log_data input_data output_data.

(** A parsed configuration file: section name to its options. *)
Definition ConfigParser : Type := list (string * list (string * string)).

(** What [config[name]] and an option of a section are to Python. *)
Inductive cfgval : Type :=
| SectionProxy (options : list (string * string))
| OptionStr (s : string).

(** [config[name]]: the section of that name. *)
Definition config_getitem (config : ConfigParser) (name : string) : result cfgval :=
  match assoc name config with
  | Some options => Ok (SectionProxy options)
  | None =>
      if String.eqb name "DEFAULT" then Ok (SectionProxy []) else Raise (KeyError name)
  end.

(** [os.environ[key] = v]: the value must be a str.  The variable is read by
    the storage client only, which the session does not model. *)
Definition environ_setitem (key : string) (v : cfgval) : M unit :=
  match v with
  | OptionStr _ => ret tt
  | SectionProxy _ => lift (Raise (TypeError "str expected, not SectionProxy"))
  end.

(** Lines 181-185 of [main].  [read] is what [config.read('dl.cfg')] comes
    to: the sections of the file (none when the file is not there), or the
    error of the parser on a file it cannot parse. *)
Definition load_credentials (read : result ConfigParser) : M unit :=
  config <- lift read ;;
  key <- lift (config_getitem config "AWS_ACCESS_KEY_ID") ;;
  environ_setitem "AWS_ACCESS_KEY_ID" key ;;
  secret <- lift (config_getitem config "AWS_SECRET_ACCESS_KEY") ;;
  environ_setitem "AWS_SECRET_ACCESS_KEY" secret.

(** Lines 187-193 of [main]: the pipeline, from the session on. *)
Definition pipeline : M unit :=
  create_spark_session ;;
  let input_data := "s3a://udacity-dend/" in
  let output_data := "root_dir + '/data/'" in
  process_song_data input_data output_data ;;
  process_log_data input_data output_data.

Definition main (read : result ConfigParser) : M unit :=
  load_credentials read ;;
  pipeline.

(* ================================================================== *)
(** ** Vocabulary of the statements *)

(** The catalog frame the reader returns for the matched files [fl]. *)
Definition song_frame (fl : list (list record)) : DataFrame :=
  {| columns := map sf_name songdata_schema;
     partitions := map (map (apply_schema songdata_schema)) fl |}.

(** [year != 0] once resolved against the catalog columns. *)
Definition year_not_zero : rcond := RCmp true (RCol 2) (RLit (VInt 0)).

(** The frame [songs_query] evaluates to over the catalog frame. *)
Definition songs_dimension (fl : list (list record)) : DataFrame :=
  distinct (project [RCol 0; RCol 1; RCol 2; RCol 3]
                    ["song_id"; "artist_id"; "year"; "duration"]
                    (restrict (Some year_not_zero) (song_frame fl))).

(** The frame [artists_query] evaluates to over the catalog frame. *)
Definition artists_dimension (fl : list (list record)) : DataFrame :=
  distinct (project [RCol 4; RCol 5; RCol 6; RCol 7; RCol 8]
                    ["artist_id"; "artist_name"; "artist_location";
                     "artist_latitude"; "artist_longitude"]
                    (restrict None (song_frame fl))).

(** The columns of the frame [create_log_dataframe] is written to return. *)
Definition log_columns : list string :=
  (map sf_name logdata_schema ++ ["timeStamp"; "startTime"])%list.

Definition user_tuple (r : row) : row :=
  [ cell log_columns r "userId"; cell log_columns r "firstName";
    cell log_columns r "lastName"; cell log_columns r "gender";
    cell log_columns r "level" ].

(** The columns of the view [combined_table], as line 152 names them. *)
Definition combined_columns : list string :=
  [ "userId"; "level"; "song_id"; "artist_id"; "sessionId"; "location";
    "userAgent"; "startTime" ].

Definition songplay_columns : list string :=
  [ "startTime"; "userId"; "level"; "song_id"; "artist_id"; "sessionId";
    "location"; "userAgent"; "year"; "month"; "songplay_id" ].

(** The table a finished or failed run left under [path], if any. *)
Definition written (path : string) (s : session) : option table :=
  assoc path (store s).

(** A run of the pipeline in a new process, the credentials being in place:
    no temporary view yet, the output directory as the previous runs left it. *)
Definition run (fl : list (string * list (list record)))
    (disk : list (string * table)) : result unit * session :=
  pipeline {| files := fl; views := []; store := disk |}.

Definition catalog_path : string := "s3a://udacity-dend//song_data/*/*/*/".
Definition log_path : string := "s3a://udacity-dend//log_data/*/*/*/".
Definition songs_path : string := "root_dir + '/data/'/songs/songs.parquet".
Definition artists_path : string := "root_dir + '/data/'/artists/artists.parquet".
Definition users_path : string := "root_dir + '/data/'/users/users.parquet".
Definition time_path : string := "root_dir + '/data/'/time/time.parquet".
Definition songplays_path : string := "root_dir + '/data/'/songplays/songplays.parquet".

(** How the read of the activity log ends, by what the log path matches. *)
Definition log_failure (fl : list (string * list (list record))) (input_data : string)
    : exn :=
  match assoc (input_data ++ "/log_data/*/*/*/") fl with
  | None =>
      AnalysisException ("Path does not exist: " ++ input_data ++ "/log_data/*/*/*/")
  | Some _ => AssertionError "col should be Column"
  end.

(** [page == "NextSong"] once resolved against the log columns. *)
Definition is_play : rcond := RCmp false (RCol 10) (RLit (VStr "NextSong")).

(** The view [staging_logs] that line 118 derives from a log frame. *)
Definition staging_logs (log_data : DataFrame) : DataFrame :=
  restrict (Some is_play) log_data.

(** The frame [users_query] evaluates to over that view. *)
Definition users_dimension (log_data : DataFrame) : DataFrame :=
  distinct (project [RCol 17; RCol 2; RCol 5; RCol 3; RCol 7]
                    ["userId"; "firstName"; "lastName"; "gender"; "level"]
                    (restrict None (staging_logs log_data))).

(** The frame [time_query] evaluates to over that view. *)
Definition time_dimension (log_data : DataFrame) : DataFrame :=
  project [ RCol 19; RCall "hour" (RCol 19); RCall "day" (RCol 19);
            RCall "weekofyear" (RCol 19); RCall "month" (RCol 19);
            RCall "year" (RCol 19); RCall "weekday" (RCol 19) ]
          ["startTime"; "hour"; "day"; "week"; "month"; "year"; "weekday"]
          (restrict None (staging_logs log_data)).

(** The cells of one column, row by row. *)
Definition column_cells (c : string) (df : DataFrame) : list value :=
  map (fun r => cell (columns df) r c) (collect df).

(** The four cells [songs_query] selects from a catalog row. *)
Definition song_tuple (r : row) : row :=
  [ nth 0 r VNull; nth 1 r VNull; nth 2 r VNull; nth 3 r VNull ].

(** The frame [songplays_query] evaluates to over the view [combined_table]. *)
Definition songplays_projection (c : DataFrame) : DataFrame :=
  project [ RCol 7; RCol 0; RCol 1; RCol 2; RCol 3; RCol 4; RCol 5; RCol 6;
            RCall "year" (RCol 7); RCall "month" (RCol 7) ]
          [ "startTime"; "userId"; "level"; "song_id"; "artist_id"; "sessionId";
            "location"; "userAgent"; "year"; "month" ]
          (restrict None c).

(** The ids of [n] consecutive rows of partition [pid], from position [pos]. *)
Fixpoint ids_rows (pid pos : Z) (n : nat) : list Z :=
  match n with
  | O => []
  | S n' => monotonic_id pid pos :: ids_rows pid (pos + 1)%Z n'
  end.

(** The ids of a frame whose partitions, from index [pid] on, have the sizes [ns]. *)
Fixpoint ids_parts (pid : Z) (ns : list nat) : list Z :=
  match ns with
  | [] => []
  | n :: ns' => (ids_rows pid 0 n ++ ids_parts (pid + 1)%Z ns')%list
  end.

(** The song row of a catalog record, as the songs query selects it. *)
Definition song_row (rec : record) : row :=
  [ field "song_id" rec; field "title" rec; field "year" rec; field "duration" rec ].

(** The artist row of a catalog record. *)
Definition artist_row (rec : record) : row :=
  [ field "artist_id" rec; field "artist_name" rec; field "artist_location" rec;
    field "artist_latitude" rec; field "artist_longitude" rec ].

(** The time row of a row of the log frame. *)
Definition time_row (r : row) : row :=
  let st := cell log_columns r "startTime" in
  [ st; apply_scalar "hour" st; apply_scalar "day" st; apply_scalar "weekofyear" st;
    apply_scalar "month" st; apply_scalar "year" st; apply_scalar "weekday" st ].

(** The rows of a log frame that line 118 keeps. *)
Definition plays (log_data : DataFrame) : list row :=
  filter (holds is_play) (collect log_data).

(** Every cell of the row is null or of the type its field declares. *)
Definition typed_row (schema : StructType) (r : row) : Prop :=
  Forall2 (fun f v => has_type (sf_type f) v = true) schema r.

(** The integers of a list of integer cells. *)
Fixpoint int_cells (l : list value) : option (list Z) :=
  match l with
  | [] => Some []
  | VInt z :: l' => option_map (cons z) (int_cells l')
  | _ :: _ => None
  end.





(* ================================================================== *)
(** ** Sample inputs *)

Definition gardel_song : record :=
  [ ("song_id", VStr "SOGARDEL01"); ("title", VStr "Volver"); ("year", VStr "1934");
    ("duration", VDouble 1); ("artist_id", VStr "ARGARDEL"); 
    ("artist_name", VStr "Carlos Gardel") ].

Definition undated_song : record :=
  [ ("song_id", VStr "SOUNDATED1"); ("title", VStr "Untitled"); ("year", VStr "0");
    ("duration", VDouble 2); ("artist_id", VStr "ARUNKNOWN");
    ("artist_name", VStr "Anonymous") ].

Definition play_event (user : string) (ts : Z) : record :=
  [ ("artist", VStr "Carlos Gardel"); ("firstName", VStr "Kaylee");
    ("gender", VStr "F"); ("lastName", VStr "Summers"); ("level", VStr "free");
    ("page", VStr "NextSong"); ("sessionId", VInt 139); ("ts", VInt ts);
    ("userId", VStr user) ].

Definition home_event : record :=
  [ ("firstName", VStr "Walter"); ("gender", VStr "M"); ("lastName", VStr "Frye");
    ("level", VStr "free"); ("page", VStr "Home"); ("sessionId", VInt 38);
    ("ts", VInt 1541105830796); ("userId", VStr "39") ].

(** A log frame with the columns of [log_columns], the two derived columns
    holding the given timestamp text. *)
Definition log_frame_of (stamp : string) (events : list record) : DataFrame :=
  {| columns := log_columns;
     partitions :=
       [ map (fun e => (apply_schema logdata_schema e
                         ++ [VStr stamp; VStr stamp])%list) events ] |}.

Definition stamp : string := "2018-11-12 02:39:55.796000".

(** One visit of the home page, no play. *)
Definition home_log : DataFrame := log_frame_of stamp [home_event].

(** One play by a user whose id is the empty string. *)
Definition anonymous_log : DataFrame :=
  log_frame_of stamp [play_event EmptyString 1541990395796].

(** Two plays at the same instant. *)
Definition simultaneous_log : DataFrame :=
  log_frame_of stamp [play_event "8" 1541990395796; play_event "9" 1541990395796].

(** One play of an artist of the catalog. *)
Definition gardel_log : DataFrame :=
  log_frame_of stamp [play_event "8" 1541990395796].

(** A joined view of three rows in two partitions. *)
Definition combined_sample : DataFrame :=
  {| columns := combined_columns;
     partitions :=
       [ [ [VStr "8"; VStr "free"; VStr "SOGARDEL01"; VStr "ARGARDEL"; VInt 139;
            VNull; VNull; VStr stamp];
           [VStr "9"; VStr "paid"; VStr "SOGARDEL01"; VStr "ARGARDEL"; VInt 140;
            VNull; VNull; VStr stamp] ];
         [ [VStr "8"; VStr "free"; VStr "SOGARDEL01"; VStr "ARGARDEL"; VInt 139;
            VNull; VNull; VStr stamp] ] ] |}.

(** A joined row. *)
Definition joined_row : row :=
  [ VStr "8"; VStr "free"; VStr "SOGARDEL01"; VStr "ARGARDEL"; VInt 139;
    VNull; VNull; VStr stamp ].

(** A skewed joined view: a partition of 2^33 + 1 rows, then a partition of
    one row. *)
Definition skewed_join : DataFrame :=
  {| columns := combined_columns;
     partitions := [ repeat joined_row (Z.to_nat (2 ^ 33 + 1)); [joined_row] ] |}.

(** The catalog directories are there and hold no file. *)
Definition empty_catalog : list (string * list (list record)) :=
  [ (catalog_path, []) ].

Definition undated_only : list (string * list (list record)) :=
  [ (catalog_path, [[undated_song]]) ].

Definition both_sources : list (string * list (list record)) :=
  [ (catalog_path, [[gardel_song; undated_song]]);
    (log_path, [[play_event "8" 1541990395796; home_event]]) ].

Definition catalog_only : list (string * list (list record)) :=
  [ (catalog_path, [[gardel_song; undated_song]]) ].


Definition empty_session : session := {| files := []; views := []; store := [] |}.

(* ================================================================== *)
(** * Properties *)

(** ** Association lists *)

Lemma assoc_remove_key_same {V} (k : string) (l : list (string * V)) :
  assoc k (remove_key k l) = None.
Proof.
  induction l as [|[k' v] l IH]; simpl; [reflexivity|].
  destruct (String.eqb k' k) eqn:E; [exact IH|].
  simpl. rewrite E. exact IH.
Qed.

Lemma assoc_remove_key_other {V} (k k' : string) (l : list (string * V)) :
  k <> k' -> assoc k' (remove_key k l) = assoc k' l.
Proof.
  intros N. induction l as [|[k0 v] l IH]; simpl; [reflexivity|].
  destruct (String.eqb k0 k) eqn:E.
  - apply String.eqb_eq in E. subst k0.
    destruct (String.eqb k k') eqn:E'; [|exact IH].
    apply String.eqb_eq in E'. contradiction.
  - simpl. rewrite IH. reflexivity.
Qed.

Lemma assoc_put_same {V} (k : string) (v : V) (l : list (string * V)) :
  assoc k (put k v l) = Some v.
Proof. unfold put. simpl. rewrite String.eqb_refl. reflexivity. Qed.

Lemma assoc_put_other {V} (k k' : string) (v : V) (l : list (string * V)) :
  k <> k' -> assoc k' (put k v l) = assoc k' l.
Proof.
  intros N. unfold put. simpl.
  destruct (String.eqb k k') eqn:E.
  - apply String.eqb_eq in E. contradiction.
  - apply assoc_remove_key_other. exact N.
Qed.

(** Writing the same two tables again changes no lookup. *)
Lemma assoc_put_twice {V} (k1 k2 : string) (v1 v2 : V) (l : list (string * V)) (k : string) :
  assoc k (put k2 v2 (put k1 v1 (put k2 v2 (put k1 v1 l))))
  = assoc k (put k2 v2 (put k1 v1 l)).
Proof.
  destruct (string_dec k2 k) as [->|N2].
  - rewrite !assoc_put_same. reflexivity.
  - rewrite (assoc_put_other k2 k) by exact N2.
    rewrite (assoc_put_other k2 k v2 (put k1 v1 l)) by exact N2.
    destruct (string_dec k1 k) as [->|N1].
    + rewrite !assoc_put_same. reflexivity.
    + rewrite !(assoc_put_other k1 k) by exact N1.
      rewrite (assoc_put_other k2 k) by exact N2.
      rewrite (assoc_put_other k1 k) by exact N1. reflexivity.
Qed.

(** ** Projections that read no row id keep to [map] *)

Lemma number_rows_map (f : Z -> row -> row) (g : row -> row) :
  (forall pos r, f pos r = g r) ->
  forall rs pos, number_rows f pos rs = map g rs.
Proof.
  intros H rs. induction rs as [|r rs IH]; intros pos; simpl; [reflexivity|].
  rewrite H, IH. reflexivity.
Qed.

Lemma number_parts_map (f : Z -> Z -> row -> row) (g : row -> row) :
  (forall pid pos r, f pid pos r = g r) ->
  forall ps pid, number_parts f pid ps = map (map g) ps.
Proof.
  intros H ps. induction ps as [|p ps IH]; intros pid; simpl; [reflexivity|].
  rewrite IH. f_equal. apply number_rows_map. intros. apply H.
Qed.

Lemma concat_filter (p : row -> bool) (ps : list (list row)) :
  List.concat (map (filter p) ps) = filter p (List.concat ps).
Proof.
  induction ps as [|x ps IH]; simpl; [reflexivity|].
  rewrite filter_app, IH. reflexivity.
Qed.

Lemma collect_restrict (c : option rcond) (df : DataFrame) :
  collect (restrict c df) = filter (keep c) (collect df).
Proof. unfold collect, restrict. simpl. apply concat_filter. Qed.

Lemma collect_distinct (df : DataFrame) :
  collect (distinct df) = nodup row_eq_dec (collect df).
Proof. unfold collect at 1, distinct. simpl. apply app_nil_r. Qed.

(** ** The two catalog queries *)

Lemma run_songs_query (views : list (string * DataFrame)) (fl : list (list record)) :
  assoc "staging_songs" views = Some (song_frame fl) ->
  run_query views songs_query = Ok (songs_dimension fl).
Proof.
  intros H. unfold run_query, songs_query, resolve_source, relation_frame, lookup_view.
  cbn [q_from q_where q_items q_distinct]. rewrite H. reflexivity.
Qed.

Lemma run_artists_query (views : list (string * DataFrame)) (fl : list (list record)) :
  assoc "staging_songs" views = Some (song_frame fl) ->
  run_query views artists_query = Ok (artists_dimension fl).
Proof.
  intros H. unfold run_query, artists_query, resolve_source, relation_frame, lookup_view.
  cbn [q_from q_where q_items q_distinct]. rewrite H. reflexivity.
Qed.

(** ** [process_song_data] *)

Lemma views_staging_songs (fl : list (list record)) (views : list (string * DataFrame))
    (t : DataFrame) :
  assoc "staging_songs" (put "songs" t (put "staging_songs" (song_frame fl) views))
  = Some (song_frame fl).
Proof.
  rewrite assoc_put_other by discriminate. apply assoc_put_same.
Qed.

Lemma process_song_data_reads (input_data output_data : string) (s : session)
    (fl : list (list record)) :
  assoc (input_data ++ "/song_data/*/*/*/") (files s) = Some fl ->
  process_song_data input_data output_data s =
  (Ok tt,
   {| files := files s;
      views := put "artists" (artists_dimension fl)
                 (put "songs" (songs_dimension fl)
                    (put "staging_songs" (song_frame fl) (views s)));
      store := put (join output_data "artists/artists.parquet")
                   {| partition_by := []; contents := artists_dimension fl |}
                 (put (join output_data "songs/songs.parquet")
                      {| partition_by := ["year"; "artist_id"];
                         contents := songs_dimension fl |}
                      (store s)) |}).
Proof.
  intros H.
  unfold process_song_data, create_song_dataframe, bind, read_json.
  rewrite H. fold (song_frame fl).
  unfold createOrReplaceTempView at 1. unfold spark_sql at 1.
  cbn [views files store].
  rewrite (run_songs_query _ fl) by apply assoc_put_same.
  unfold createOrReplaceTempView at 1. cbn [views files store].
  unfold write_parquet at 1. cbn [views files store].
  change (forallb _ ["year"; "artist_id"]) with true. cbv iota.
  unfold spark_sql at 1. cbn [views files store].
  rewrite (run_artists_query _ fl) by apply views_staging_songs.
  unfold createOrReplaceTempView at 1. cbn [views files store].
  unfold write_parquet at 1. cbn [views files store forallb].
  reflexivity.
Qed.

Lemma process_song_data_no_source (input_data output_data : string) (s : session) :
  assoc (input_data ++ "/song_data/*/*/*/") (files s) = None ->
  process_song_data input_data output_data s =
  (Raise (AnalysisException
            ("Path does not exist: " ++ input_data ++ "/song_data/*/*/*/")), s).
Proof.
  intros H. unfold process_song_data, create_song_dataframe, bind, read_json.
  rewrite H. reflexivity.
Qed.

(** ** [create_log_dataframe] *)

(** Line 73 hands [withColumn] the text of a Column object: whenever the log
    source is there, the call raises, and the session is as the read left it. *)
Lemma create_log_dataframe_outcome (input_data : string) (s : session) :
  create_log_dataframe input_data s =
  match assoc (input_data ++ "/log_data/*/*/*/") (files s) with
  | None =>
      (Raise (AnalysisException
                ("Path does not exist: " ++ input_data ++ "/log_data/*/*/*/")), s)
  | Some _ => (Raise (AssertionError "col should be Column"), s)
  end.
Proof.
  unfold create_log_dataframe, bind, read_json.
  destruct (assoc (input_data ++ "/log_data/*/*/*/") (files s)) as [fl|];
    reflexivity.
Qed.

(** ** The queries over the activity log *)

Lemma run_users_query (views : list (string * DataFrame)) (log_data : DataFrame) :
  columns log_data = log_columns ->
  assoc "staging_logs" views = Some (staging_logs log_data) ->
  run_query views users_query = Ok (users_dimension log_data).
Proof.
  intros C H. unfold run_query, users_query, resolve_source, relation_frame, lookup_view.
  cbn [q_from q_where q_items q_distinct]. rewrite H.
  unfold frame_scope, staging_logs, restrict.
  cbn [rbind fst snd columns]. rewrite C. reflexivity.
Qed.

Lemma run_time_query (views : list (string * DataFrame)) (log_data : DataFrame) :
  columns log_data = log_columns ->
  assoc "staging_logs" views = Some (staging_logs log_data) ->
  run_query views time_query = Ok (time_dimension log_data).
Proof.
  intros C H. unfold run_query, time_query, resolve_source, relation_frame, lookup_view.
  cbn [q_from q_where q_items q_distinct]. rewrite H.
  unfold frame_scope, staging_logs, restrict.
  cbn [rbind fst snd columns]. rewrite C. reflexivity.
Qed.

Lemma positions_none {A} (p : A -> bool) (l : list A) :
  (forall x, In x l -> p x = false) -> forall i, positions p l i = [].
Proof.
  induction l as [|a l IH]; intros H i; simpl; [reflexivity|].
  rewrite (H a) by (left; reflexivity).
  apply IH. intros x Hx. apply H. right. exact Hx.
Qed.

Lemma frame_scope_qualifier (q : string) (df : DataFrame) (e : string * string) :
  In e (frame_scope q df) -> fst e = q.
Proof.
  unfold frame_scope. intros H. apply in_map_iff in H.
  destruct H as [c [<- _]]. reflexivity.
Qed.

(** The join names its relations [l] and [s]; the ON clause qualifies its
    columns with [staging_logs] and [song_df], which no relation in scope
    answers to; and [song_df] is a Python variable, not a registered view.
    Whatever the views are, the analysis of the query fails. *)
Lemma combined_query_unresolved (views : list (string * DataFrame)) :
  exists e, run_query views combined_query = Raise e.
Proof.
  unfold run_query, combined_query, resolve_source, relation_frame.
  cbn [q_from q_where q_items q_distinct].
  destruct (lookup_view views "staging_logs") as [dl|e]; [|eexists; reflexivity].
  destruct (lookup_view views "song_df") as [dr|e]; [|eexists; reflexivity].
  cbn [rbind qualifier]. unfold resolve_cond, qcol.
  cbn [resolve_expr]. unfold resolve_col.
  rewrite positions_none.
  - eexists. reflexivity.
  - intros x Hx. apply in_app_or in Hx. unfold named.
    destruct Hx as [Hx|Hx]; apply frame_scope_qualifier in Hx; rewrite Hx;
      rewrite andb_false_r; reflexivity.
Qed.

(** In a session that registered only the views of lines 83-145, the query
    already fails on the relation [song_df]. *)
Lemma combined_query_no_view (views : list (string * DataFrame)) (df : DataFrame) :
  assoc "staging_logs" views = Some df ->
  assoc "song_df" views = None ->
  run_query views combined_query
  = Raise (AnalysisException "Table or view not found: song_df").
Proof.
  intros Hl Hs.
  unfold run_query, combined_query, resolve_source, relation_frame, lookup_view.
  cbn [q_from]. rewrite Hl, Hs. reflexivity.
Qed.

(** ** [os.path.join] keeps distinct table names distinct *)

Lemma append_cancel (a x y : string) : a ++ x = a ++ y -> x = y.
Proof.
  induction a as [|c a IH]; simpl; intros H; [exact H|].
  injection H as H. apply IH. exact H.
Qed.

Lemma join_cancel (a x y : string) :
  starts_with_slash x = false -> starts_with_slash y = false ->
  join a x = join a y -> x = y.
Proof.
  intros Hx Hy. unfold join. rewrite Hx, Hy.
  destruct (ends_with_slash a).
  - apply append_cancel.
  - destruct a as [|c a]; [trivial|].
    intros H. apply append_cancel in H. simpl in H. injection H as H. exact H.
Qed.

(** ** [process_log_frame] *)

(** Lines 117-173 on a log frame with the expected columns: the users and the
    time table are written, then the run raises, at the catalog read or at the
    join. *)
Lemma process_log_frame_outcome (log_data : DataFrame) (input_data output_data : string)
    (s : session) :
  columns log_data = log_columns ->
  exists e vs,
    process_log_frame log_data input_data output_data s =
    (Raise e,
     {| files := files s;
        views := vs;
        store := put (join output_data "time/time.parquet")
                     {| partition_by := ["year"; "month"];
                        contents := time_dimension log_data |}
                   (put (join output_data "users/users.parquet")
                        {| partition_by := []; contents := users_dimension log_data |}
                        (store s)) |}).
Proof.
  intros C.
  unfold process_log_frame, bind, lift, getattr. rewrite C.
  change (existsb (String.eqb "page") log_columns) with true. cbv beta iota.
  unfold df_filter, frame_scope. rewrite C.
  change (resolve_cond (map (fun c => (EmptyString, c)) log_columns)
            (CmpEq (Col None "page") (Lit (VStr "NextSong"))))
    with (Ok is_play).
  cbn [rbind]. fold (staging_logs log_data).
  unfold createOrReplaceTempView at 1. unfold spark_sql at 1. cbn [views files store].
  rewrite (run_users_query _ log_data C) by apply assoc_put_same.
  unfold createOrReplaceTempView at 1. cbn [views files store].
  unfold write_parquet at 1. cbn [views files store forallb].
  unfold spark_sql at 1. cbn [views files store].
  rewrite (run_time_query _ log_data C)
    by (rewrite assoc_put_other by discriminate; apply assoc_put_same).
  unfold createOrReplaceTempView at 1. cbn [views files store].
  unfold write_parquet at 1. cbn [views files store].
  change (forallb _ ["year"; "month"]) with true. cbv iota.
  unfold create_song_dataframe, read_json. cbn [views files store].
  destruct (assoc (input_data ++ "/song_data/*/*/*/") (files s)) as [fl|].
  - unfold spark_sql at 1. cbn [views files store].
    destruct (combined_query_unresolved
                (put "time" (time_dimension log_data)
                   (put "users" (users_dimension log_data)
                      (put "staging_logs" (staging_logs log_data) (views s)))))
      as [e He].
    rewrite He. eexists. eexists. reflexivity.
  - eexists. eexists. reflexivity.
Qed.

(** ** [main] *)

(** Lines 184-185 assign a section of the configuration, not an option of it,
    to the environment: whatever the file holds, [main] raises there, a
    KeyError without such a section, a TypeError with one.  The statements
    below are about the pipeline that follows these lines. *)
Lemma main_raises_on_credentials (read : result ConfigParser) (s : session) :
  exists e, main read s = (Raise e, s).
Proof.
  unfold main, load_credentials, bind, lift, config_getitem.
  destruct read as [config|e]; [|eexists; reflexivity].
  destruct (assoc "AWS_ACCESS_KEY_ID" config); cbn; eexists; reflexivity.
Qed.

(** Every run of the pipeline: without catalog it raises at once; with a
    catalog it writes the songs and the artists table and raises in the read
    of the log. *)
Lemma pipeline_outcome (s : session) :
  pipeline s =
  match assoc catalog_path (files s) with
  | None =>
      (Raise (AnalysisException ("Path does not exist: " ++ catalog_path)), s)
  | Some fl =>
      (Raise (log_failure (files s) "s3a://udacity-dend/"),
       {| files := files s;
          views := put "artists" (artists_dimension fl)
                     (put "songs" (songs_dimension fl)
                        (put "staging_songs" (song_frame fl) (views s)));
          store := put artists_path
                       {| partition_by := []; contents := artists_dimension fl |}
                     (put songs_path
                          {| partition_by := ["year"; "artist_id"];
                             contents := songs_dimension fl |}
                          (store s)) |})
  end.
Proof.
  unfold pipeline, create_spark_session, ret.
  unfold bind at 1. unfold bind at 1.
  destruct (assoc catalog_path (files s)) as [fl|] eqn:H.
  - rewrite (process_song_data_reads "s3a://udacity-dend/" _ s fl H).
    unfold process_log_data, bind. rewrite create_log_dataframe_outcome.
    cbn [files]. unfold log_failure.
    destruct (assoc ("s3a://udacity-dend/" ++ "/log_data/*/*/*/") (files s))
      as [gl|]; reflexivity.
  - rewrite (process_song_data_no_source "s3a://udacity-dend/" _ s) by exact H.
    reflexivity.
Qed.

(** ** Rows of the dimension frames *)

Lemma collect_project (es : list rexpr) (names : list string) (df : DataFrame) :
  (forall pid pos r, map (eval pid pos r) es = map (eval 0 0 r) es) ->
  collect (project es names df) = map (fun r => map (eval 0 0 r) es) (collect df).
Proof.
  intros H. unfold collect, project. cbn [partitions].
  rewrite (number_parts_map _ (fun r => map (eval 0 0 r) es)) by exact H.
  symmetry. apply concat_map.
Qed.

Lemma collect_song_frame (fl : list (list record)) :
  collect (song_frame fl) = map (apply_schema songdata_schema) (List.concat fl).
Proof. unfold collect, song_frame. cbn [partitions]. symmetry. apply concat_map. Qed.

Lemma collect_songs_dimension (fl : list (list record)) :
  collect (songs_dimension fl)
  = nodup row_eq_dec
      (map song_tuple
         (filter (holds year_not_zero)
            (map (apply_schema songdata_schema) (List.concat fl)))).
Proof.
  unfold songs_dimension. rewrite collect_distinct.
  rewrite collect_project by reflexivity.
  rewrite collect_restrict, collect_song_frame. reflexivity.
Qed.

(** ** The cast reads back the decimal text of an integer *)














(** The WHERE clause of the songs query keeps a row with a string-typed year
    cell exactly when the text casts to an integer other than 0. *)
Lemma year_not_zero_spec (r : row) :
  has_type StringType (nth 2 r VNull) = true ->
  (holds year_not_zero r = true <->
   exists y n, nth 2 r VNull = VStr y /\ cast_int y = Some n /\ n <> 0%Z).
Proof.
  unfold holds, year_not_zero. cbn [eval].
  destruct (nth 2 r VNull) as [|y|z|d|f a]; cbn [has_type sql_eq];
    try discriminate; intros _.
  - split; [discriminate|]. intros [y [n [H _]]]. discriminate.
  - destruct (cast_int y) as [n|] eqn:E; cbn [option_map].
    + split.
      * intros H. exists y, n. split; [reflexivity|]. split; [exact E|].
        intros ->. discriminate.
      * intros [y' [n' [Hy [Hn Hz]]]]. injection Hy as <-.
        rewrite E in Hn. injection Hn as <-.
        destruct (Z.eqb_spec n 0); [contradiction|reflexivity].
    + split; [discriminate|].
      intros [y' [n' [Hy [Hn _]]]]. injection Hy as <-.
      rewrite E in Hn. discriminate.
Qed.

Lemma year_cell_of_record (rec : record) :
  nth 2 (apply_schema songdata_schema rec) VNull = field "year" rec.
Proof. reflexivity. Qed.

(** In a row typed by the catalog schema the year is null or a text. *)
Lemma typed_year (rec : record) :
  typed_row songdata_schema (apply_schema songdata_schema rec) ->
  has_type StringType (field "year" rec) = true.
Proof.
  unfold typed_row, apply_schema. cbn [map songdata_schema sf_name sf_type].
  intros H.
  inversion H as [|? ? ? ? _ K1]. inversion K1 as [|? ? ? ? _ K2].
  inversion K2 as [|? ? ? ? Hy _]. exact Hy.
Qed.

Lemma in_songs_dimension (fl : list (list record)) (r : row) :
  In r (collect (songs_dimension fl)) <->
  exists rec, In rec (List.concat fl) /\
              holds year_not_zero (apply_schema songdata_schema rec) = true /\
              r = song_tuple (apply_schema songdata_schema rec).
Proof.
  rewrite collect_songs_dimension, nodup_In, in_map_iff. split.
  - intros [r0 [<- H]]. apply filter_In in H. destruct H as [H K].
    apply in_map_iff in H. destruct H as [rec [<- H]].
    exists rec. auto.
  - intros [rec [H [K ->]]]. exists (apply_schema songdata_schema rec).
    split; [reflexivity|]. apply filter_In. split; [|exact K].
    apply in_map. exact H.
Qed.

Lemma songs_written (input_data output_data : string) (s : session)
    (fl : list (list record)) :
  assoc (input_data ++ "/song_data/*/*/*/") (files s) = Some fl ->
  written (join output_data "songs/songs.parquet")
          (snd (process_song_data input_data output_data s))
  = Some {| partition_by := ["year"; "artist_id"];
            contents := songs_dimension fl |}.
Proof.
  intros H. rewrite (process_song_data_reads _ _ _ fl H).
  unfold written. cbn [snd store].
  rewrite assoc_put_other.
  - apply assoc_put_same.
  - intros E. apply join_cancel in E; [discriminate|reflexivity|reflexivity].
Qed.

(* ------------------------------------------------------------------ *)
(** ** The Song dimension *)

(** C1.  The claim asks for the distinct (song_id, title, artist_id, year,
    duration) tuples of the catalog.  On a catalog of one dated and one undated
    song the run writes a songs table of four columns: the select list has no
    comma between [title] and [artist_id], so the title is written under the
    name [artist_id], there is no [title] column, and the artist id of the
    catalog entry (ARGARDEL) is nowhere in the table, which is partitioned by
    year and that title column. *)
Theorem song_dimension_title_under_artist_id :
  written songs_path (snd (run both_sources [])) =
  Some {| partition_by := ["year"; "artist_id"];
          contents :=
            {| columns := ["song_id"; "artist_id"; "year"; "duration"];
               partitions :=
                 [[[VStr "SOGARDEL01"; VStr "Volver"; VStr "1934"; VDouble 1]]] |} |}.
Proof. vm_compute. reflexivity. Qed.



(** Whatever the catalog, the cell written under [artist_id] is the title of a
    catalog record. *)
Lemma songs_artist_id_is_title (fl : list (list record)) (r : row) :
  In r (collect (songs_dimension fl)) ->
  exists rec, In rec (List.concat fl) /\
              cell (columns (songs_dimension fl)) r "artist_id"
              = field "title" rec.
Proof.
  intros H. apply in_songs_dimension in H. destruct H as [rec [H [_ ->]]].
  exists rec. split; [exact H|reflexivity].
Qed.

(* ------------------------------------------------------------------ *)
(** ** The User dimension *)

Lemma is_play_spec (r : row) :
  holds is_play r = true <-> cell log_columns r "page" = VStr "NextSong".
Proof.
  unfold holds, is_play. cbn [eval].
  change (cell log_columns r "page") with (nth 10 r VNull).
  destruct (nth 10 r VNull) as [|p|z|d|f a]; cbn [sql_eq option_map];
    try (split; discriminate).
  - destruct (String.eqb_spec p "NextSong") as [->|N].
    + split; reflexivity.
    + split; [discriminate|]. intros E. injection E as E. contradiction.
Qed.

Lemma collect_staging_logs (log_data : DataFrame) :
  collect (staging_logs log_data) = filter (holds is_play) (collect log_data).
Proof. unfold staging_logs. apply collect_restrict. Qed.

Lemma collect_users_dimension (log_data : DataFrame) :
  collect (users_dimension log_data)
  = nodup row_eq_dec (map user_tuple (filter (holds is_play) (collect log_data))).
Proof.
  unfold users_dimension. rewrite collect_distinct.
  rewrite collect_project by reflexivity.
  rewrite collect_restrict, collect_staging_logs.
  cbn [keep]. rewrite filter_true. reflexivity.
Qed.

Lemma in_users_dimension (log_data : DataFrame) (u : row) :
  In u (collect (users_dimension log_data)) <->
  exists r, In r (collect log_data) /\
            cell log_columns r "page" = VStr "NextSong" /\ u = user_tuple r.
Proof.
  rewrite collect_users_dimension, nodup_In, in_map_iff. split.
  - intros [r [<- H]]. apply filter_In in H. destruct H as [H K].
    exists r. split; [exact H|]. split; [apply is_play_spec; exact K|reflexivity].
  - intros [r [H [K ->]]]. exists r. split; [reflexivity|].
    apply filter_In. split; [exact H|apply is_play_spec; exact K].
Qed.

Lemma users_written (log_data : DataFrame) (input_data output_data : string)
    (s : session) :
  columns log_data = log_columns ->
  written (join output_data "users/users.parquet")
          (snd (process_log_frame log_data input_data output_data s))
  = Some {| partition_by := []; contents := users_dimension log_data |}.
Proof.
  intros C.
  destruct (process_log_frame_outcome log_data input_data output_data s C)
    as [e [vs ->]].
  unfold written. cbn [snd store].
  rewrite assoc_put_other.
  - apply assoc_put_same.
  - intros E. apply join_cancel in E; [discriminate|reflexivity|reflexivity].
Qed.

(** C2, as the code has it.  Over a log frame with the columns the reader is
    written to return, the users table that lines 117-130 write holds exactly
    the distinct (userId, firstName, lastName, gender, level) tuples of the
    events whose page is NextSong, each once; an event with another page
    contributes no row. *)
Theorem users_dimension_of_play_events (log_data : DataFrame)
    (input_data output_data : string) (s : session) :
  columns log_data = log_columns ->
  exists t,
    written (join output_data "users/users.parquet")
            (snd (process_log_frame log_data input_data output_data s)) = Some t /\
    columns (contents t) = ["userId"; "firstName"; "lastName"; "gender"; "level"] /\
    NoDup (collect (contents t)) /\
    (forall u, In u (collect (contents t)) <->
       exists r, In r (collect log_data) /\
                 cell log_columns r "page" = VStr "NextSong" /\ u = user_tuple r).
Proof.
  intros C. eexists. split; [apply users_written; exact C|].
  cbn [contents]. split; [reflexivity|]. split.
  - rewrite collect_users_dimension. apply NoDup_nodup.
  - apply in_users_dimension.
Qed.

(** The theorem at a log of one play. *)
Lemma users_dimension_of_play_events_witness :
  exists t,
    written (join "out" "users/users.parquet")
            (snd (process_log_frame gardel_log "in" "out" empty_session)) = Some t /\
    columns (contents t) = ["userId"; "firstName"; "lastName"; "gender"; "level"] /\
    NoDup (collect (contents t)) /\
    (forall u, In u (collect (contents t)) <->
       exists r, In r (collect gardel_log) /\
                 cell log_columns r "page" = VStr "NextSong" /\ u = user_tuple r).
Proof.
  apply (users_dimension_of_play_events gardel_log "in" "out" empty_session).
  reflexivity.
Defined.

(** C2 as stated fails: the log holds one event, a visit of the home page; its
    user tuple is not in the users table, which is written empty. *)
Lemma users_dimension_skips_home_event :
  exists r t,
    In r (collect home_log) /\
    user_tuple r = [VStr "39"; VStr "Walter"; VStr "Frye"; VStr "M"; VStr "free"] /\
    written (join "out" "users/users.parquet")
            (snd (process_log_frame home_log "in" "out" empty_session)) = Some t /\
    collect (contents t) = [] /\
    ~ In (user_tuple r) (collect (contents t)).
Proof.
  eexists. eexists. split; [left; reflexivity|].
  split; [vm_compute; reflexivity|].
  split; [vm_compute; reflexivity|].
  split; [reflexivity|]. intros [].
Qed.

(** C5, as the code has it.  The users query has no condition on the user id:
    a play event whose user id is the empty string puts its tuple, with the
    empty id, in the users table. *)
Theorem users_keep_empty_user_id (log_data : DataFrame)
    (input_data output_data : string) (s : session) (r : row) :
  columns log_data = log_columns ->
  In r (collect log_data) ->
  cell log_columns r "page" = VStr "NextSong" ->
  cell log_columns r "userId" = VStr EmptyString ->
  exists t,
    written (join output_data "users/users.parquet")
            (snd (process_log_frame log_data input_data output_data s)) = Some t /\
    In (user_tuple r) (collect (contents t)) /\
    cell (columns (contents t)) (user_tuple r) "userId" = VStr EmptyString.
Proof.
  intros C H P U. eexists. split; [apply users_written; exact C|].
  cbn [contents]. split.
  - apply in_users_dimension. exists r. auto.
  - exact U.
Qed.

(** The theorem at a log of one play by a user with the empty id. *)
Lemma users_keep_empty_user_id_witness :
  exists t,
    written (join "out" "users/users.parquet")
            (snd (process_log_frame anonymous_log "in" "out" empty_session)) = Some t /\
    In (user_tuple (apply_schema logdata_schema (play_event EmptyString 1541990395796)
                      ++ [VStr stamp; VStr stamp])%list)
       (collect (contents t)) /\
    cell (columns (contents t))
         (user_tuple (apply_schema logdata_schema (play_event EmptyString 1541990395796)
                        ++ [VStr stamp; VStr stamp])%list)
         "userId" = VStr EmptyString.
Proof.
  apply (users_keep_empty_user_id anonymous_log "in" "out" empty_session).
  - reflexivity.
  - left. reflexivity.
  - reflexivity.
  - reflexivity.
Defined.

(** C5 as stated fails: after a play by a user with the empty id, the users
    table has a row whose user id is empty. *)
Lemma users_dimension_has_empty_user_id :
  exists t,
    written (join "out" "users/users.parquet")
            (snd (process_log_frame anonymous_log "in" "out" empty_session)) = Some t /\
    collect (contents t)
    = [[VStr EmptyString; VStr "Kaylee"; VStr "Summers"; VStr "F"; VStr "free"]] /\
    column_cells "userId" (contents t) = [VStr EmptyString].
Proof.
  eexists. split; [vm_compute; reflexivity|]. split; reflexivity.
Qed.

(* ------------------------------------------------------------------ *)
(** ** Missing sources *)

(** C6, as the code has it.  The pipeline of [main] reads the catalog and
    writes its two tables before it turns to the log.  A catalog path that does
    not exist ends the run before any table is written; a log path that does
    not exist ends it after the songs and the artists table were written, and
    before any other table is.  A catalog path that exists and holds no file is
    no failure of the read: the songs and the artists table are written
    without rows. *)
Theorem missing_source_outcome (fl : list (string * list (list record)))
    (disk : list (string * table)) :
  (assoc catalog_path fl = None ->
   run fl disk =
   (Raise (AnalysisException ("Path does not exist: " ++ catalog_path)),
    {| files := fl; views := []; store := disk |})) /\
  (forall cat,
     assoc catalog_path fl = Some cat ->
     assoc log_path fl = None ->
     fst (run fl disk) = Raise (AnalysisException ("Path does not exist: " ++ log_path)) /\
     store (snd (run fl disk)) =
     put artists_path
         {| partition_by := []; contents := artists_dimension cat |}
       (put songs_path
            {| partition_by := ["year"; "artist_id"];
               contents := songs_dimension cat |}
            disk)) /\
  (assoc catalog_path fl = Some [] ->
   exists ts ta,
     written songs_path (snd (run fl disk)) = Some ts /\
     collect (contents ts) = [] /\
     written artists_path (snd (run fl disk)) = Some ta /\
     collect (contents ta) = []).
Proof.
  unfold run. rewrite pipeline_outcome. cbn [files views store].
  split; [|split].
  - intros H. rewrite H. reflexivity.
  - intros cat H L. rewrite H. cbn [fst snd store]. split; [|reflexivity].
    unfold log_failure.
    change ("s3a://udacity-dend/" ++ "/log_data/*/*/*/") with log_path.
    rewrite L. reflexivity.
  - intros H. rewrite H. unfold written. cbn [snd store].
    eexists. eexists. split; [|split; [|split]].
    + rewrite assoc_put_other by discriminate. apply assoc_put_same.
    + reflexivity.
    + apply assoc_put_same.
    + reflexivity.
Qed.

(** The theorem at no source at all, at a catalog without log, and at a
    catalog without file. *)
Lemma missing_source_outcome_witness :
  run [] [] =
  (Raise (AnalysisException ("Path does not exist: " ++ catalog_path)),
   {| files := []; views := []; store := [] |}) /\
  (fst (run catalog_only [])
   = Raise (AnalysisException ("Path does not exist: " ++ log_path)) /\
   store (snd (run catalog_only [])) =
   put artists_path
       {| partition_by := [];
          contents := artists_dimension [[gardel_song; undated_song]] |}
     (put songs_path
          {| partition_by := ["year"; "artist_id"];
             contents := songs_dimension [[gardel_song; undated_song]] |}
          [])) /\
  (exists ts ta,
     written songs_path (snd (run empty_catalog [])) = Some ts /\
     collect (contents ts) = [] /\
     written artists_path (snd (run empty_catalog [])) = Some ta /\
     collect (contents ta) = []).
Proof.
  split; [|split].
  - apply (proj1 (missing_source_outcome [] [])). reflexivity.
  - apply (proj1 (proj2 (missing_source_outcome catalog_only []))
             [[gardel_song; undated_song]]).
    + reflexivity.
    + reflexivity.
  - apply (proj2 (proj2 (missing_source_outcome empty_catalog []))). reflexivity.
Defined.

(** C6 as stated fails: with a catalog and no activity log, the run raises on
    the missing log path when the songs and the artists table are on disk. *)
Lemma song_tables_written_before_log_failure :
  fst (run catalog_only [])
  = Raise (AnalysisException ("Path does not exist: " ++ log_path)) /\
  map fst (store (snd (run catalog_only []))) = [artists_path; songs_path] /\
  written songs_path (snd (run catalog_only [])) <> None /\
  written artists_path (snd (run catalog_only [])) <> None.
Proof.
  split; [vm_compute; reflexivity|].
  split; [vm_compute; reflexivity|].
  split; vm_compute; discriminate.
Qed.

(* ------------------------------------------------------------------ *)
(** ** The derived timestamp, the Time dimension, the fact table *)

(** C7.  The claim has every event carry the civil time of its epoch
    milliseconds, read by the time and the fact logic.  No call of
    [create_log_dataframe] returns a frame: line 73 passes [str(...)] of a
    Column, a Python string, where [withColumn] wants a Column.  On a log with
    one event of epoch 1541990395796 the run raises there, and neither the time
    nor the songplays table is written. *)
Theorem event_timestamp_never_derived :
  (forall input_data s, exists e, create_log_dataframe input_data s = (Raise e, s)) /\
  fst (run both_sources []) = Raise (AssertionError "col should be Column") /\
  written time_path (snd (run both_sources [])) = None /\
  written songplays_path (snd (run both_sources [])) = None.
Proof.
  split.
  - intros input_data s. rewrite create_log_dataframe_outcome.
    destruct (assoc (input_data ++ "/log_data/*/*/*/") (files s)) as [[|f fl]|];
      eexists; reflexivity.
  - split; [vm_compute; reflexivity|]. split; vm_compute; reflexivity.
Qed.

(** C3.  The claim has one fact row per pair of a play and a catalog entry of
    the same artist name.  The join query cannot be analysed in any session:
    its ON clause qualifies the columns by names that the aliases [l] and [s]
    replaced.  On one play of Carlos Gardel with his song in the catalog, lines
    117-173 raise on the relation [song_df], which is no view, and no songplays
    table is written; nor is one by the whole run. *)
Theorem songplays_join_never_resolves :
  (forall views, exists e, run_query views combined_query = Raise e) /\
  fst (process_log_frame gardel_log "s3a://udacity-dend/" "out"
         {| files := both_sources; views := []; store := [] |})
  = Raise (AnalysisException "Table or view not found: song_df") /\
  written (join "out" "songplays/songplays.parquet")
          (snd (process_log_frame gardel_log "s3a://udacity-dend/" "out"
                  {| files := both_sources; views := []; store := [] |})) = None /\
  written songplays_path (snd (run both_sources [])) = None.
Proof.
  split; [exact combined_query_unresolved|].
  split; [vm_compute; reflexivity|]. split; vm_compute; reflexivity.
Qed.

(** C4.  The claim has no timestamp in two rows of the time table.  The time
    query has no DISTINCT, unlike the three other dimension queries: on two
    plays at the same instant, lines 117-148 write a time table of two rows
    with that one timestamp.  The whole run writes no time table at all. *)
Theorem time_dimension_repeats_timestamp :
  q_distinct time_query = false /\
  (exists t,
     written (join "out" "time/time.parquet")
             (snd (process_log_frame simultaneous_log "in" "out" empty_session))
     = Some t /\
     column_cells "startTime" (contents t) = [VStr stamp; VStr stamp]) /\
  written time_path (snd (run both_sources [])) = None.
Proof.
  split; [reflexivity|]. split.
  - eexists. split; [vm_compute; reflexivity|]. reflexivity.
  - vm_compute. reflexivity.
Qed.

(* ------------------------------------------------------------------ *)
(** ** The songplay ids *)

Lemma number_rows_length (f : Z -> row -> row) (rs : list row) (pos : Z) :
  List.length (number_rows f pos rs) = List.length rs.
Proof.
  revert pos. induction rs as [|r rs IH]; intros pos; simpl; [reflexivity|].
  rewrite IH. reflexivity.
Qed.

Lemma number_parts_shape (f : Z -> Z -> row -> row) (ps : list (list row)) (pid : Z) :
  map (@List.length row) (number_parts f pid ps) = map (@List.length row) ps.
Proof.
  revert pid. induction ps as [|p ps IH]; intros pid; simpl; [reflexivity|].
  rewrite number_rows_length, IH. reflexivity.
Qed.

Lemma fit_length (n : nat) (r : row) : List.length (fit n r) = n.
Proof.
  unfold fit. rewrite length_firstn, length_app, repeat_length. lia.
Qed.

Lemma last_cell (n : nat) (r : row) (v : value) :
  nth n (fit n r ++ [v]) VNull = v.
Proof.
  rewrite <- (fit_length n r) at 1. apply nth_middle.
Qed.

Lemma id_cells_rows (n : nat) (pid : Z) (rs : list row) (pos : Z) :
  map (fun r => nth n r VNull)
      (number_rows (fun pos r => (fit n r ++ [VInt (monotonic_id pid pos)])%list) pos rs)
  = map VInt (ids_rows pid pos (List.length rs)).
Proof.
  revert pos. induction rs as [|r rs IH]; intros pos; simpl; [reflexivity|].
  rewrite last_cell, IH. reflexivity.
Qed.

Lemma id_cells_parts (n : nat) (ps : list (list row)) (pid : Z) :
  map (fun r => nth n r VNull)
      (List.concat
         (number_parts
            (fun pid pos r => (fit n r ++ [VInt (monotonic_id pid pos)])%list) pid ps))
  = map VInt (ids_parts pid (map (@List.length row) ps)).
Proof.
  revert pid. induction ps as [|p ps IH]; intros pid; simpl; [reflexivity|].
  rewrite !map_app, id_cells_rows, IH. reflexivity.
Qed.

Lemma wrap64_inj (a b : Z) :
  (0 <= a < 2 ^ 64)%Z -> (0 <= b < 2 ^ 64)%Z -> wrap64 a = wrap64 b -> a = b.
Proof.
  unfold wrap64. intros Ha Hb E.
  assert (M : ((a + 2 ^ 63) mod 2 ^ 64 = (b + 2 ^ 63) mod 2 ^ 64)%Z) by lia.
  pose proof (Z.div_mod (a + 2 ^ 63) (2 ^ 64) ltac:(lia)) as Da.
  pose proof (Z.div_mod (b + 2 ^ 63) (2 ^ 64) ltac:(lia)) as Db.
  rewrite M in Da. lia.
Qed.

(** Within 31 bits of partition index and 33 bits of position, the id
    determines the partition and the position. *)
Lemma monotonic_id_inj (p q k j : Z) :
  (0 <= p < 2 ^ 31)%Z -> (0 <= q < 2 ^ 31)%Z ->
  (0 <= k < 2 ^ 33)%Z -> (0 <= j < 2 ^ 33)%Z ->
  monotonic_id p k = monotonic_id q j -> p = q /\ k = j.
Proof.
  unfold monotonic_id. intros Hp Hq Hk Hj E.
  rewrite !Z.shiftl_mul_pow2 in E by lia.
  apply wrap64_inj in E; lia.
Qed.

Lemma in_ids_rows (pid pos : Z) (n : nat) (x : Z) :
  In x (ids_rows pid pos n) ->
  exists k, (pos <= k < pos + Z.of_nat n)%Z /\ x = monotonic_id pid k.
Proof.
  revert pos. induction n as [|n IH]; intros pos; simpl; [intros []|].
  intros [<-|H].
  - exists pos. split; [lia|reflexivity].
  - apply IH in H. destruct H as [k [B ->]]. exists k. split; [lia|reflexivity].
Qed.

Lemma NoDup_ids_rows (pid pos : Z) (n : nat) :
  (0 <= pid < 2 ^ 31)%Z -> (0 <= pos)%Z -> (pos + Z.of_nat n <= 2 ^ 33)%Z ->
  NoDup (ids_rows pid pos n).
Proof.
  intros Hp. revert pos. induction n as [|n IH]; intros pos H0 H1; simpl.
  - constructor.
  - constructor.
    + intros H. apply in_ids_rows in H. destruct H as [k [B E]].
      apply monotonic_id_inj in E; lia.
    + apply IH; lia.
Qed.

Lemma in_ids_parts (pid : Z) (ns : list nat) (x : Z) :
  Forall (fun n => (Z.of_nat n <= 2 ^ 33)%Z) ns ->
  In x (ids_parts pid ns) ->
  exists p k, (pid <= p < pid + Z.of_nat (List.length ns))%Z /\
              (0 <= k < 2 ^ 33)%Z /\ x = monotonic_id p k.
Proof.
  revert pid. induction ns as [|n ns IH]; intros pid F; simpl; [intros []|].
  inversion F as [|? ? Hn F']; subst. intros H. apply in_app_or in H.
  destruct H as [H|H].
  - apply in_ids_rows in H. destruct H as [k [B ->]].
    exists pid, k. split; [lia|]. split; [lia|reflexivity].
  - apply (IH _ F') in H. destruct H as [p [k [B [K ->]]]].
    exists p, k. split; [lia|]. split; [exact K|reflexivity].
Qed.

Lemma NoDup_ids_parts (pid : Z) (ns : list nat) :
  (0 <= pid)%Z -> (pid + Z.of_nat (List.length ns) <= 2 ^ 31)%Z ->
  Forall (fun n => (Z.of_nat n <= 2 ^ 33)%Z) ns ->
  NoDup (ids_parts pid ns).
Proof.
  revert pid. induction ns as [|n ns IH]; intros pid H0 H1 F; simpl.
  - constructor.
  - inversion F as [|? ? Hn F']; subst. simpl List.length in H1.
    apply NoDup_app.
    + apply NoDup_ids_rows; lia.
    + apply IH; [lia|lia|exact F'].
    + intros x Hx Hy. apply in_ids_rows in Hx. destruct Hx as [k [B ->]].
      apply (in_ids_parts _ _ _ F') in Hy. destruct Hy as [p [j [Bp [Bj E]]]].
      apply monotonic_id_inj in E; lia.
Qed.

Lemma NoDup_map_VInt (l : list Z) : NoDup l -> NoDup (map VInt l).
Proof.
  intros H. induction H as [|x l N _ IH]; simpl; constructor; [|exact IH].
  intros K. apply in_map_iff in K. destruct K as [y [E K]].
  injection E as ->. contradiction.
Qed.

Lemma run_songplays_query (views : list (string * DataFrame)) (c : DataFrame) :
  columns c = combined_columns ->
  assoc "combined_table" views = Some c ->
  run_query views songplays_query = Ok (songplays_projection c).
Proof.
  intros C H.
  unfold run_query, songplays_query, resolve_source, relation_frame, lookup_view.
  cbn [q_from q_where q_items q_distinct]. rewrite H.
  unfold frame_scope. cbn [rbind fst snd]. rewrite C. reflexivity.
Qed.

(** Lines 163-167 over a registered joined view. *)
Lemma songplays_table_outcome (s : session) (c : DataFrame) :
  columns c = combined_columns ->
  assoc "combined_table" (views s) = Some c ->
  songplays_table s =
  (Ok {| columns := songplay_columns;
         partitions :=
           number_parts
             (fun pid pos r => (fit 10 r ++ [VInt (monotonic_id pid pos)])%list)
             0 (partitions (songplays_projection c)) |}, s).
Proof.
  intros C H. unfold songplays_table, bind, spark_sql, lift.
  rewrite (run_songplays_query _ c C H). reflexivity.
Qed.

Lemma length_by_shape (ps qs : list (list row)) :
  map (@List.length row) ps = map (@List.length row) qs ->
  List.length (List.concat ps) = List.length (List.concat qs).
Proof.
  intros H. rewrite !length_concat, H. reflexivity.
Qed.

Lemma songplays_projection_shape (c : DataFrame) :
  map (@List.length row) (partitions (songplays_projection c))
  = map (@List.length row) (partitions c).
Proof.
  unfold songplays_projection, project, restrict. cbn [partitions keep].
  rewrite number_parts_shape, map_map. apply map_ext.
  intros p. rewrite filter_true. reflexivity.
Qed.

(** C8, within the bound the id function documents.  Over a joined view of at
    most 2^31 partitions of at most 2^33 rows each, lines 163-167 return a
    frame with one row per joined row, and the cells of its [songplay_id]
    column are pairwise distinct.  Nothing in [etl.py] or in the engine keeps
    a partition of the join within that bound. *)
Theorem songplay_ids_distinct (s : session) (c : DataFrame) :
  columns c = combined_columns ->
  assoc "combined_table" (views s) = Some c ->
  (Z.of_nat (List.length (partitions c)) <= 2 ^ 31)%Z ->
  Forall (fun p => (Z.of_nat (List.length p) <= 2 ^ 33)%Z) (partitions c) ->
  exists t,
    songplays_table s = (Ok t, s) /\
    columns t = songplay_columns /\
    List.length (collect t) = List.length (collect c) /\
    NoDup (column_cells "songplay_id" t).
Proof.
  intros C H B F. eexists. split; [apply songplays_table_outcome; eassumption|].
  split; [reflexivity|]. split.
  - unfold collect. cbn [partitions]. apply length_by_shape.
    rewrite number_parts_shape. apply songplays_projection_shape.
  - unfold column_cells, collect. cbn [columns partitions].
    change (fun r => cell songplay_columns r "songplay_id")
      with (fun r : row => nth 10 r VNull).
    rewrite id_cells_parts, songplays_projection_shape.
    apply NoDup_map_VInt. apply NoDup_ids_parts.
    + lia.
    + rewrite length_map. lia.
    + apply Forall_map. exact F.
Qed.

(** The theorem at a joined view of three rows in two partitions. *)
Lemma songplay_ids_distinct_witness :
  exists t,
    songplays_table {| files := []; views := [("combined_table", combined_sample)];
                       store := [] |}
    = (Ok t, {| files := []; views := [("combined_table", combined_sample)];
                store := [] |}) /\
    columns t = songplay_columns /\
    List.length (collect t) = List.length (collect combined_sample) /\
    NoDup (column_cells "songplay_id" t).
Proof.
  apply (songplay_ids_distinct
           {| files := []; views := [("combined_table", combined_sample)];
              store := [] |} combined_sample).
  - reflexivity.
  - reflexivity.
  - simpl. lia.
  - repeat constructor; simpl; lia.
Defined.

Lemma in_ids_rows_at (pid pos : Z) (n : nat) (k : Z) :
  (0 <= k < Z.of_nat n)%Z -> In (monotonic_id pid (pos + k)) (ids_rows pid pos n).
Proof.
  revert pos k. induction n as [|n IH]; intros pos k B; [lia|].
  cbn [ids_rows]. destruct (Z.eq_dec k 0) as [->|N].
  - left. f_equal. lia.
  - right. replace (pos + k)%Z with (pos + 1 + (k - 1))%Z by lia.
    apply IH. lia.
Qed.

Lemma NoDup_app_common {A} (x : A) (l l' : list A) :
  In x l -> In x l' -> ~ NoDup (l ++ l').
Proof.
  intros H H' N. induction l as [|a l IH]; [destruct H|].
  cbn [app] in N. inversion N as [|? ? K N']; subst.
  destruct H as [->|H].
  - apply K. apply in_or_app. right. exact H'.
  - exact (IH H N').
Qed.

(** Position 2^33 of a partition carries the id of position 0 of the next. *)
Lemma ids_parts_collide (n m : nat) (ns : list nat) :
  (2 ^ 33 < Z.of_nat n)%Z -> (0 < m)%nat -> ~ NoDup (ids_parts 0 (n :: m :: ns)).
Proof.
  intros Hn Hm. cbn [ids_parts]. change (0 + 1)%Z with 1%Z.
  apply (NoDup_app_common (monotonic_id 1 0)).
  - change (monotonic_id 1 0) with (monotonic_id 0 (0 + 2 ^ 33)).
    apply in_ids_rows_at. lia.
  - apply in_or_app. left. destruct m as [|m]; [lia|]. left. reflexivity.
Qed.

(** C8, as the claim has it, fails beyond the bound: over a joined view whose
    first partition holds 2^33 + 1 rows, lines 163-167 return a frame in which
    the last row of that partition and the first row of the next carry the
    same [songplay_id]. *)
Lemma songplay_ids_collide_in_skewed_join :
  exists t,
    songplays_table {| files := []; views := [("combined_table", skewed_join)];
                       store := [] |}
    = (Ok t, {| files := []; views := [("combined_table", skewed_join)];
                store := [] |}) /\
    ~ NoDup (column_cells "songplay_id" t).
Proof.
  eexists. split; [apply (songplays_table_outcome _ skewed_join); reflexivity|].
  unfold column_cells, collect. cbn [columns partitions].
  change (fun r => cell songplay_columns r "songplay_id")
    with (fun r : row => nth 10 r VNull).
  rewrite id_cells_parts, songplays_projection_shape.
  change (partitions skewed_join)
    with [repeat joined_row (Z.to_nat (2 ^ 33 + 1)); [joined_row]].
  cbn [map]. rewrite repeat_length.
  change (List.length [joined_row]) with 1%nat.
  intros N. apply NoDup_map_inv in N. revert N. apply ids_parts_collide.
  - rewrite Z2Nat.id; lia.
  - lia.
Qed.

(* ================================================================== *)
(** * Further properties of the pipeline *)

(** ** The two catalog tables *)

Lemma collect_artists_dimension (fl : list (list record)) :
  collect (artists_dimension fl) = nodup row_eq_dec (map artist_row (List.concat fl)).
Proof.
  unfold artists_dimension. rewrite collect_distinct.
  rewrite collect_project by reflexivity.
  rewrite collect_restrict, collect_song_frame.
  cbn [keep]. rewrite filter_true, map_map. reflexivity.
Qed.

Lemma artists_written (input_data output_data : string) (s : session)
    (fl : list (list record)) :
  assoc (input_data ++ "/song_data/*/*/*/") (files s) = Some fl ->
  written (join output_data "artists/artists.parquet")
          (snd (process_song_data input_data output_data s))
  = Some {| partition_by := []; contents := artists_dimension fl |}.
Proof.
  intros H. rewrite (process_song_data_reads _ _ _ fl H).
  unfold written. cbn [snd store]. apply assoc_put_same.
Qed.

(** X1.  When the catalog is read, [process_song_data] writes an unpartitioned
    artists table whose rows are exactly the distinct (artist_id, artist_name,
    artist_location, artist_latitude, artist_longitude) rows of all catalog
    records, each once; no record is filtered out, whatever its year. *)
Theorem artists_dimension_of_catalog (input_data output_data : string) (s : session)
    (fl : list (list record)) :
  assoc (input_data ++ "/song_data/*/*/*/") (files s) = Some fl ->
  exists t,
    written (join output_data "artists/artists.parquet")
            (snd (process_song_data input_data output_data s)) = Some t /\
    partition_by t = [] /\
    columns (contents t) = [ "artist_id"; "artist_name"; "artist_location";
                             "artist_latitude"; "artist_longitude" ] /\
    NoDup (collect (contents t)) /\
    (forall a, In a (collect (contents t)) <->
       exists rec, In rec (List.concat fl) /\ a = artist_row rec).
Proof.
  intros H. eexists. split; [apply artists_written; exact H|].
  cbn [partition_by contents]. split; [reflexivity|]. split; [reflexivity|].
  rewrite collect_artists_dimension. split; [apply NoDup_nodup|].
  intros a. rewrite nodup_In, in_map_iff. split.
  - intros [rec [<- K]]. exists rec. auto.
  - intros [rec [K ->]]. exists rec. auto.
Qed.

Lemma artists_dimension_of_catalog_witness :
  exists t,
    written (join "out" "artists/artists.parquet")
            (snd (process_song_data "s3a://udacity-dend/" "out"
                    {| files := both_sources; views := []; store := [] |})) = Some t /\
    partition_by t = [] /\
    columns (contents t) = [ "artist_id"; "artist_name"; "artist_location";
                             "artist_latitude"; "artist_longitude" ] /\
    NoDup (collect (contents t)) /\
    (forall a, In a (collect (contents t)) <->
       exists rec, In rec (List.concat [[gardel_song; undated_song]]) /\
                   a = artist_row rec).
Proof.
  apply (artists_dimension_of_catalog "s3a://udacity-dend/" "out"
           {| files := both_sources; views := []; store := [] |}
           [[gardel_song; undated_song]]).
  reflexivity.
Defined.

(** X3.  When the catalog is read into rows typed by the declared schema, the
    songs table is partitioned by [year] and [artist_id], has the four columns
    song_id, artist_id, year, duration, and its rows are exactly the distinct
    (song_id, title, year, duration) rows of the catalog records whose year
    text casts to an integer other than 0, each once: a record with year 0,
    without year, or with a year that is no number is left out. *)
Theorem songs_dimension_of_catalog (input_data output_data : string) (s : session)
    (fl : list (list record)) :
  assoc (input_data ++ "/song_data/*/*/*/") (files s) = Some fl ->
  (forall rec, In rec (List.concat fl) ->
     typed_row songdata_schema (apply_schema songdata_schema rec)) ->
  exists t,
    written (join output_data "songs/songs.parquet")
            (snd (process_song_data input_data output_data s)) = Some t /\
    partition_by t = ["year"; "artist_id"] /\
    columns (contents t) = ["song_id"; "artist_id"; "year"; "duration"] /\
    NoDup (collect (contents t)) /\
    (forall r, In r (collect (contents t)) <->
       exists rec, In rec (List.concat fl) /\
                   (exists y n, field "year" rec = VStr y /\
                                cast_int y = Some n /\ n <> 0%Z) /\
                   r = song_row rec).
Proof.
  intros H T. eexists. split; [apply songs_written; exact H|].
  cbn [partition_by contents]. split; [reflexivity|]. split; [reflexivity|].
  split; [rewrite collect_songs_dimension; apply NoDup_nodup|].
  intros r. rewrite in_songs_dimension. split.
  - intros [rec [K [Y ->]]]. exists rec. split; [exact K|]. split; [|reflexivity].
    apply year_not_zero_spec in Y.
    + rewrite year_cell_of_record in Y. exact Y.
    + rewrite year_cell_of_record. apply typed_year, T. exact K.
  - intros [rec [K [Y ->]]]. exists rec. split; [exact K|]. split; [|reflexivity].
    apply year_not_zero_spec.
    + rewrite year_cell_of_record. apply typed_year, T. exact K.
    + rewrite year_cell_of_record. exact Y.
Qed.

Lemma songs_dimension_of_catalog_witness :
  exists t,
    written (join "out" "songs/songs.parquet")
            (snd (process_song_data "s3a://udacity-dend/" "out"
                    {| files := both_sources; views := []; store := [] |})) = Some t /\
    partition_by t = ["year"; "artist_id"] /\
    columns (contents t) = ["song_id"; "artist_id"; "year"; "duration"] /\
    NoDup (collect (contents t)) /\
    (forall r, In r (collect (contents t)) <->
       exists rec, In rec (List.concat [[gardel_song; undated_song]]) /\
                   (exists y n, field "year" rec = VStr y /\
                                cast_int y = Some n /\ n <> 0%Z) /\
                   r = song_row rec).
Proof.
  apply (songs_dimension_of_catalog "s3a://udacity-dend/" "out"
           {| files := both_sources; views := []; store := [] |}
           [[gardel_song; undated_song]]).
  - reflexivity.
  - intros rec [<-|[<-|[]]]; repeat constructor.
Defined.

(** ** Output paths *)

(** X5.  Whatever the output directory, the five paths the tables are written
    to are pairwise distinct: no table overwrites another. *)
Theorem output_paths_distinct (output_data : string) :
  NoDup [ join output_data "songs/songs.parquet";
          join output_data "artists/artists.parquet";
          join output_data "users/users.parquet";
          join output_data "time/time.parquet";
          join output_data "songplays/songplays.parquet" ].
Proof.
  repeat constructor; simpl; intros H;
    repeat (destruct H as [H|H];
            [apply join_cancel in H; [discriminate H|reflexivity|reflexivity]|]);
    exact H.
Qed.

(** X4.  [process_song_data] touches two paths of the output only: every
    other table on disk is after the call what it was before, whether the
    catalog was read or not; and the input files are never changed. *)
Theorem process_song_data_leaves_other_tables (input_data output_data : string)
    (s : session) (path : string) :
  path <> join output_data "songs/songs.parquet" ->
  path <> join output_data "artists/artists.parquet" ->
  written path (snd (process_song_data input_data output_data s)) = written path s /\
  files (snd (process_song_data input_data output_data s)) = files s.
Proof.
  intros Ns Na.
  destruct (assoc (input_data ++ "/song_data/*/*/*/") (files s)) as [fl|] eqn:H.
  - rewrite (process_song_data_reads _ _ _ fl H). unfold written.
    cbn [snd store files]. split; [|reflexivity].
    rewrite assoc_put_other by (intros E; apply Na; symmetry; exact E).
    apply assoc_put_other. intros E. apply Ns. symmetry. exact E.
  - rewrite process_song_data_no_source by exact H. split; reflexivity.
Qed.

Lemma process_song_data_leaves_other_tables_witness :
  written "out/users/users.parquet"
          (snd (process_song_data "s3a://udacity-dend/" "out"
                  {| files := both_sources; views := []; store := [] |}))
  = written "out/users/users.parquet"
            {| files := both_sources; views := []; store := [] |} /\
  files (snd (process_song_data "s3a://udacity-dend/" "out"
                {| files := both_sources; views := []; store := [] |}))
  = both_sources.
Proof.
  apply (process_song_data_leaves_other_tables "s3a://udacity-dend/" "out"
           {| files := both_sources; views := []; store := [] |}
           "out/users/users.parquet").
  - vm_compute. discriminate.
  - vm_compute. discriminate.
Defined.

(** ** The credentials *)

(** X2.  [main] never gets past its credential lines.  When the read of the
    configuration file raises, [main] ends with that error; otherwise it raises
    a KeyError when the file has no section AWS_ACCESS_KEY_ID and a TypeError
    when it has one, since line 184 assigns the section, not a string, to the
    environment.  In every case the session is untouched: no file is read, no
    view registered, no table written. *)
Theorem main_stops_at_credentials (read : result ConfigParser) (s : session) :
  main read s =
  (Raise (match read with
          | Raise e => e
          | Ok config =>
              match assoc "AWS_ACCESS_KEY_ID" config with
              | Some _ => TypeError "str expected, not SectionProxy"
              | None => KeyError "AWS_ACCESS_KEY_ID"
              end
          end), s).
Proof.
  unfold main, load_credentials, bind, lift, config_getitem.
  destruct read as [config|e]; [|reflexivity].
  destruct (assoc "AWS_ACCESS_KEY_ID" config); reflexivity.
Qed.

(** ** The activity-log tables *)

Lemma collect_time_dimension (log_data : DataFrame) :
  collect (time_dimension log_data) = map time_row (plays log_data).
Proof.
  unfold time_dimension, plays. rewrite collect_project by reflexivity.
  rewrite collect_restrict, collect_staging_logs.
  cbn [keep]. rewrite filter_true. reflexivity.
Qed.

(** X6.  Over a log frame with the expected columns, lines 117-148 write a
    time table partitioned by year and month that has one row per NextSong
    event, in the order of the events and with repetitions: the event's
    startTime followed by hour, day, week, month, year and weekday of it. *)
Theorem time_dimension_row_per_play (log_data : DataFrame)
    (input_data output_data : string) (s : session) :
  columns log_data = log_columns ->
  exists t,
    written (join output_data "time/time.parquet")
            (snd (process_log_frame log_data input_data output_data s)) = Some t /\
    partition_by t = ["year"; "month"] /\
    columns (contents t)
    = ["startTime"; "hour"; "day"; "week"; "month"; "year"; "weekday"] /\
    collect (contents t) = map time_row (plays log_data) /\
    (forall r, In r (plays log_data) <->
       In r (collect log_data) /\ cell log_columns r "page" = VStr "NextSong").
Proof.
  intros C.
  destruct (process_log_frame_outcome log_data input_data output_data s C)
    as [e [vs E]].
  eexists. split.
  { rewrite E. unfold written. cbn [snd store]. apply assoc_put_same. }
  cbn [partition_by contents]. split; [reflexivity|]. split; [reflexivity|].
  split; [apply collect_time_dimension|].
  intros r. unfold plays. rewrite filter_In, is_play_spec. reflexivity.
Qed.

Lemma time_dimension_row_per_play_witness :
  exists t,
    written (join "out" "time/time.parquet")
            (snd (process_log_frame simultaneous_log "in" "out" empty_session))
    = Some t /\
    partition_by t = ["year"; "month"] /\
    columns (contents t)
    = ["startTime"; "hour"; "day"; "week"; "month"; "year"; "weekday"] /\
    collect (contents t) = map time_row (plays simultaneous_log) /\
    (forall r, In r (plays simultaneous_log) <->
       In r (collect simultaneous_log) /\ cell log_columns r "page" = VStr "NextSong").
Proof.
  apply (time_dimension_row_per_play simultaneous_log "in" "out" empty_session).
  reflexivity.
Defined.

(** X7.  Over a log frame with the expected columns, lines 117-173 never
    return: they raise after the users and the time table were written, and
    every other table on disk, the songplays table among them, is what it was
    before. *)
Theorem process_log_frame_stops_before_songplays (log_data : DataFrame)
    (input_data output_data : string) (s : session) :
  columns log_data = log_columns ->
  (exists e, fst (process_log_frame log_data input_data output_data s) = Raise e) /\
  written (join output_data "songplays/songplays.parquet")
          (snd (process_log_frame log_data input_data output_data s))
  = written (join output_data "songplays/songplays.parquet") s /\
  (forall path,
     path <> join output_data "users/users.parquet" ->
     path <> join output_data "time/time.parquet" ->
     written path (snd (process_log_frame log_data input_data output_data s))
     = written path s).
Proof.
  intros C.
  destruct (process_log_frame_outcome log_data input_data output_data s C)
    as [e [vs E]].
  rewrite E. cbn [fst snd]. split; [exists e; reflexivity|].
  assert (K : forall path,
             path <> join output_data "users/users.parquet" ->
             path <> join output_data "time/time.parquet" ->
             written path
               {| files := files s; views := vs;
                  store := put (join output_data "time/time.parquet")
                               {| partition_by := ["year"; "month"];
                                  contents := time_dimension log_data |}
                             (put (join output_data "users/users.parquet")
                                  {| partition_by := [];
                                     contents := users_dimension log_data |}
                                  (store s)) |}
             = written path s).
  { intros path Nu Nt. unfold written. cbn [store].
    rewrite assoc_put_other by (intros X; apply Nt; symmetry; exact X).
    apply assoc_put_other. intros X. apply Nu. symmetry. exact X. }
  split; [|exact K].
  apply K; intros X; apply join_cancel in X;
    first [discriminate X | reflexivity].
Qed.

Lemma process_log_frame_stops_before_songplays_witness :
  (exists e, fst (process_log_frame gardel_log "in" "out" empty_session) = Raise e) /\
  written (join "out" "songplays/songplays.parquet")
          (snd (process_log_frame gardel_log "in" "out" empty_session))
  = written (join "out" "songplays/songplays.parquet") empty_session /\
  (forall path,
     path <> join "out" "users/users.parquet" ->
     path <> join "out" "time/time.parquet" ->
     written path (snd (process_log_frame gardel_log "in" "out" empty_session))
     = written path empty_session).
Proof.
  apply (process_log_frame_stops_before_songplays gardel_log "in" "out" empty_session).
  reflexivity.
Defined.

(** ** The pipeline as a whole *)

(** X8.  The pipeline of [main] never returns: every run ends in an
    exception.  It never changes the input files, and of the tables on disk it
    can only change the songs and the artists table: the users, time and
    songplays tables are after the run what they were before. *)
Theorem pipeline_writes_song_tables_only (s : session) :
  (exists e, fst (pipeline s) = Raise e) /\
  files (snd (pipeline s)) = files s /\
  written users_path (snd (pipeline s)) = written users_path s /\
  written time_path (snd (pipeline s)) = written time_path s /\
  written songplays_path (snd (pipeline s)) = written songplays_path s /\
  (forall path, path <> songs_path -> path <> artists_path ->
     written path (snd (pipeline s)) = written path s).
Proof.
  rewrite pipeline_outcome.
  destruct (assoc catalog_path (files s)) as [fl|]; cbn [fst snd files].
  - split; [eexists; reflexivity|]. split; [reflexivity|].
    assert (K : forall path, path <> songs_path -> path <> artists_path ->
              written path
                {| files := files s;
                   views := put "artists" (artists_dimension fl)
                              (put "songs" (songs_dimension fl)
                                 (put "staging_songs" (song_frame fl) (views s)));
                   store := put artists_path
                                {| partition_by := [];
                                   contents := artists_dimension fl |}
                              (put songs_path
                                   {| partition_by := ["year"; "artist_id"];
                                      contents := songs_dimension fl |}
                                   (store s)) |}
              = written path s).
    { intros path Ns Na. unfold written. cbn [store].
      rewrite assoc_put_other by (intros X; apply Na; symmetry; exact X).
      apply assoc_put_other. intros X. apply Ns. symmetry. exact X. }
    split; [apply K; discriminate|]. split; [apply K; discriminate|].
    split; [apply K; discriminate|]. exact K.
  - split; [eexists; reflexivity|]. repeat split; reflexivity.
Qed.

Lemma pipeline_writes_song_tables_only_witness :
  written "elsewhere" (snd (pipeline {| files := both_sources; views := [];
                                        store := [] |}))
  = written "elsewhere" {| files := both_sources; views := []; store := [] |}.
Proof.
  apply (proj2 (proj2 (proj2 (proj2 (proj2
           (pipeline_writes_song_tables_only
              {| files := both_sources; views := []; store := [] |})))))).
  - discriminate.
  - discriminate.
Defined.

(** ** The songplays frame *)

Lemma map_number_rows2 {B} (g : row -> B) (F F' : Z -> row -> row) (h : row -> B) :
  (forall pos pos' r, g (F pos (F' pos' r)) = h r) ->
  forall rs pos pos',
    map g (number_rows F pos (number_rows F' pos' rs)) = map h rs.
Proof.
  intros H rs. induction rs as [|r rs IH]; intros pos pos'; simpl; [reflexivity|].
  rewrite H, IH. reflexivity.
Qed.

Lemma map_number_parts2 {B} (g : row -> B) (F F' : Z -> Z -> row -> row)
    (h : row -> B) :
  (forall pid pos pid' pos' r, g (F pid pos (F' pid' pos' r)) = h r) ->
  forall ps pid pid',
    map g (List.concat (number_parts F pid (number_parts F' pid' ps)))
    = map h (List.concat ps).
Proof.
  intros H ps. induction ps as [|p ps IH]; intros pid pid'; simpl; [reflexivity|].
  rewrite !map_app, IH. f_equal. apply map_number_rows2. intros. apply H.
Qed.

(** The cells of a column of the frame of lines 163-167, read off the joined
    view: [h] says what the cell is in terms of the joined row. *)
Lemma songplay_cells (c : DataFrame) (name : string) (h : row -> value) :
  (forall pid pos pid' pos' r,
     cell songplay_columns
          (fit 10 (map (eval pid' pos' r)
                       [ RCol 7; RCol 0; RCol 1; RCol 2; RCol 3; RCol 4; RCol 5;
                         RCol 6; RCall "year" (RCol 7); RCall "month" (RCol 7) ])
           ++ [VInt (monotonic_id pid pos)])%list name = h r) ->
  column_cells name
    {| columns := songplay_columns;
       partitions :=
         number_parts
           (fun pid pos r => (fit 10 r ++ [VInt (monotonic_id pid pos)])%list)
           0 (partitions (songplays_projection c)) |}
  = map h (collect c).
Proof.
  intros H. unfold column_cells, collect, songplays_projection, project, restrict.
  cbn [columns partitions keep].
  rewrite (map_number_parts2 _ _ _ h) by exact H.
  rewrite concat_filter, filter_true. reflexivity.
Qed.

(** X9.  Over a registered joined view, the frame of lines 163-167 carries,
    row by row, the eight cells of the joined row under their own names, and
    its partition columns [year] and [month] are the year and the month of that
    row's startTime. *)
Theorem songplays_rows_carry_joined_cells (s : session) (c : DataFrame) :
  columns c = combined_columns ->
  assoc "combined_table" (views s) = Some c ->
  exists t,
    songplays_table s = (Ok t, s) /\
    (forall name, In name combined_columns ->
       column_cells name t = column_cells name c) /\
    column_cells "year" t = map (apply_scalar "year") (column_cells "startTime" c) /\
    column_cells "month" t = map (apply_scalar "month") (column_cells "startTime" c).
Proof.
  intros C H. eexists. split; [apply songplays_table_outcome; eassumption|].
  split; [|split].
  - intros name Hn. unfold column_cells at 2. rewrite C.
    simpl in Hn.
    repeat (destruct Hn as [<-|Hn];
            [apply songplay_cells; intros; reflexivity|]).
    destruct Hn.
  - unfold column_cells at 2. rewrite C, map_map.
    apply songplay_cells. intros. reflexivity.
  - unfold column_cells at 2. rewrite C, map_map.
    apply songplay_cells. intros. reflexivity.
Qed.

Lemma songplays_rows_carry_joined_cells_witness :
  exists t,
    songplays_table {| files := []; views := [("combined_table", combined_sample)];
                       store := [] |}
    = (Ok t, {| files := []; views := [("combined_table", combined_sample)];
                store := [] |}) /\
    (forall name, In name combined_columns ->
       column_cells name t = column_cells name combined_sample) /\
    column_cells "year" t
    = map (apply_scalar "year") (column_cells "startTime" combined_sample) /\
    column_cells "month" t
    = map (apply_scalar "month") (column_cells "startTime" combined_sample).
Proof.
  apply (songplays_rows_carry_joined_cells
           {| files := []; views := [("combined_table", combined_sample)];
              store := [] |} combined_sample).
  - reflexivity.
  - reflexivity.
Defined.

Lemma monotonic_id_small (p k : Z) :
  (0 <= p < 2 ^ 30)%Z -> (0 <= k < 2 ^ 33)%Z ->
  monotonic_id p k = (p * 2 ^ 33 + k)%Z.
Proof.
  intros Hp Hk. unfold monotonic_id, wrap64.
  rewrite Z.shiftl_mul_pow2 by lia.
  rewrite Z.mod_small by lia. lia.
Qed.

Lemma sorted_app (l1 l2 : list Z) :
  StronglySorted Z.lt l1 -> StronglySorted Z.lt l2 ->
  (forall x y, In x l1 -> In y l2 -> (x < y)%Z) ->
  StronglySorted Z.lt (l1 ++ l2).
Proof.
  intros S1 S2 H. induction S1 as [|a l S1 IH F]; simpl; [exact S2|].
  constructor.
  - apply IH. intros x y Hx Hy. apply H; [right; exact Hx|exact Hy].
  - apply Forall_app. split; [exact F|].
    apply Forall_forall. intros y Hy. apply H; [left; reflexivity|exact Hy].
Qed.

Lemma sorted_ids_rows (pid pos : Z) (n : nat) :
  (0 <= pid < 2 ^ 30)%Z -> (0 <= pos)%Z -> (pos + Z.of_nat n <= 2 ^ 33)%Z ->
  StronglySorted Z.lt (ids_rows pid pos n).
Proof.
  intros Hp. revert pos. induction n as [|n IH]; intros pos H0 H1; simpl.
  - constructor.
  - constructor; [apply IH; lia|].
    apply Forall_forall. intros x Hx. apply in_ids_rows in Hx.
    destruct Hx as [k [B ->]]. rewrite !monotonic_id_small by lia. lia.
Qed.

Lemma sorted_ids_parts (pid : Z) (ns : list nat) :
  (0 <= pid)%Z -> (pid + Z.of_nat (List.length ns) <= 2 ^ 30)%Z ->
  Forall (fun n => (Z.of_nat n <= 2 ^ 33)%Z) ns ->
  StronglySorted Z.lt (ids_parts pid ns).
Proof.
  revert pid. induction ns as [|n ns IH]; intros pid H0 H1 F; simpl.
  - constructor.
  - inversion F as [|? ? Hn F']; subst. simpl List.length in H1.
    apply sorted_app.
    + apply sorted_ids_rows; lia.
    + apply IH; [lia|lia|exact F'].
    + intros x y Hx Hy. apply in_ids_rows in Hx. destruct Hx as [k [B ->]].
      apply (in_ids_parts _ _ _ F') in Hy. destruct Hy as [p [j [Bp [Bj ->]]]].
      rewrite !monotonic_id_small by lia. nia.
Qed.

Lemma nonneg_ids_parts (pid : Z) (ns : list nat) :
  (0 <= pid)%Z -> (pid + Z.of_nat (List.length ns) <= 2 ^ 30)%Z ->
  Forall (fun n => (Z.of_nat n <= 2 ^ 33)%Z) ns ->
  Forall (fun i => (0 <= i)%Z) (ids_parts pid ns).
Proof.
  intros H0 H1 F. apply Forall_forall. intros x Hx.
  apply (in_ids_parts _ _ _ F) in Hx. destruct Hx as [p [k [Bp [Bk ->]]]].
  rewrite monotonic_id_small by lia. nia.
Qed.

Lemma int_cells_VInt (l : list Z) : int_cells (map VInt l) = Some l.
Proof.
  induction l as [|z l IH]; simpl; [reflexivity|]. rewrite IH. reflexivity.
Qed.

(** X10.  Over a joined view of at most 2^30 partitions of at most 2^33 rows
    each, the songplay ids of lines 163-167 are non-negative integers that
    increase strictly along the rows of the frame: within 30 bits of partition
    index the 64-bit id does not wrap to a negative value. *)
Theorem songplay_ids_increase (s : session) (c : DataFrame) :
  columns c = combined_columns ->
  assoc "combined_table" (views s) = Some c ->
  (Z.of_nat (List.length (partitions c)) <= 2 ^ 30)%Z ->
  Forall (fun p => (Z.of_nat (List.length p) <= 2 ^ 33)%Z) (partitions c) ->
  exists t ids,
    songplays_table s = (Ok t, s) /\
    int_cells (column_cells "songplay_id" t) = Some ids /\
    StronglySorted Z.lt ids /\
    Forall (fun i => (0 <= i)%Z) ids.
Proof.
  intros C H B F. eexists.
  exists (ids_parts 0 (map (@List.length row) (partitions c))).
  split; [apply songplays_table_outcome; eassumption|].
  assert (F' : Forall (fun n => (Z.of_nat n <= 2 ^ 33)%Z)
                 (map (@List.length row) (partitions c)))
    by (apply Forall_map; exact F).
  split; [|split].
  - unfold column_cells, collect. cbn [columns partitions].
    change (fun r => cell songplay_columns r "songplay_id")
      with (fun r : row => nth 10 r VNull).
    rewrite id_cells_parts, songplays_projection_shape. apply int_cells_VInt.
  - apply sorted_ids_parts; [lia|rewrite length_map; lia|exact F'].
  - apply nonneg_ids_parts; [lia|rewrite length_map; lia|exact F'].
Qed.

Lemma songplay_ids_increase_witness :
  exists t ids,
    songplays_table {| files := []; views := [("combined_table", combined_sample)];
                       store := [] |}
    = (Ok t, {| files := []; views := [("combined_table", combined_sample)];
                store := [] |}) /\
    int_cells (column_cells "songplay_id" t) = Some ids /\
    StronglySorted Z.lt ids /\
    Forall (fun i => (0 <= i)%Z) ids.
Proof.
  apply (songplay_ids_increase
           {| files := []; views := [("combined_table", combined_sample)];
              store := [] |} combined_sample).
  - reflexivity.
  - reflexivity.
  - simpl. lia.
  - repeat constructor; simpl; lia.
Defined.

(** ** A catalog without dated song *)

(** X12.  When the catalog is read into rows typed by the declared schema
    and no record has a year text that casts to an integer other than 0,
    [process_song_data] does not fail: it returns, having written a songs table
    without rows and the artists table of all records. *)
Theorem songs_empty_without_dated_record (input_data output_data : string)
    (s : session) (fl : list (list record)) :
  assoc (input_data ++ "/song_data/*/*/*/") (files s) = Some fl ->
  (forall rec, In rec (List.concat fl) ->
     typed_row songdata_schema (apply_schema songdata_schema rec)) ->
  (forall rec y n, In rec (List.concat fl) ->
     field "year" rec = VStr y -> cast_int y = Some n -> n = 0%Z) ->
  exists ts ta,
    fst (process_song_data input_data output_data s) = Ok tt /\
    written (join output_data "songs/songs.parquet")
            (snd (process_song_data input_data output_data s)) = Some ts /\
    collect (contents ts) = [] /\
    written (join output_data "artists/artists.parquet")
            (snd (process_song_data input_data output_data s)) = Some ta /\
    (forall rec, In rec (List.concat fl) ->
       In (artist_row rec) (collect (contents ta))).
Proof.
  intros H T Z0. eexists. eexists.
  split; [rewrite (process_song_data_reads _ _ _ fl H); reflexivity|].
  split; [apply songs_written; exact H|]. cbn [contents]. split.
  - destruct (collect (songs_dimension fl)) as [|r l] eqn:E; [reflexivity|].
    assert (K : In r (collect (songs_dimension fl)))
      by (rewrite E; left; reflexivity).
    apply in_songs_dimension in K. destruct K as [rec [K [Y _]]].
    apply year_not_zero_spec in Y.
    + rewrite year_cell_of_record in Y. destruct Y as [y [n [Y1 [Y2 Y3]]]].
      exfalso. apply Y3. exact (Z0 rec y n K Y1 Y2).
    + rewrite year_cell_of_record. apply typed_year, T. exact K.
  - split; [apply artists_written; exact H|]. cbn [contents].
    intros rec K. rewrite collect_artists_dimension, nodup_In.
    apply in_map. exact K.
Qed.

Lemma songs_empty_without_dated_record_witness :
  exists ts ta,
    fst (process_song_data "s3a://udacity-dend/" "out"
           {| files := undated_only; views := []; store := [] |}) = Ok tt /\
    written (join "out" "songs/songs.parquet")
            (snd (process_song_data "s3a://udacity-dend/" "out"
                    {| files := undated_only; views := []; store := [] |}))
    = Some ts /\
    collect (contents ts) = [] /\
    written (join "out" "artists/artists.parquet")
            (snd (process_song_data "s3a://udacity-dend/" "out"
                    {| files := undated_only; views := []; store := [] |}))
    = Some ta /\
    (forall rec, In rec (List.concat [[undated_song]]) ->
       In (artist_row rec) (collect (contents ta))).
Proof.
  apply (songs_empty_without_dated_record "s3a://udacity-dend/" "out"
           {| files := undated_only; views := []; store := [] |}
           [[undated_song]]).
  - reflexivity.
  - intros rec [<-|[]]; repeat constructor.
  - intros rec y n [<-|[]] Y C. vm_compute in Y. injection Y as <-.
    vm_compute in C. injection C as <-. reflexivity.
Defined.

(* ================================================================== *)
(** * Repeated runs *)













